(** * mcp-memory: the Streamable HTTP transport and its session store

    A shallow embedding of [src/streamable-http.ts] (class
    [StreamableHttpHandler]) and of the session manager Durable Object
    (class [SessionManager]), with the properties of the transport stated
    and proved over it.

    - [Js]: the JavaScript values that [JSON.parse] produces, with the
      handful of language operations the handler applies to them
      (truthiness, [typeof], property reads, [||]).
    - [SessionManager]: the Durable Object; its storage is a finite map from
      session identifiers to [SessionData].
    - [StreamableHttp]: the handler, written in a small state-and-exception
      monad so that [try]/[catch] and the order of effects read as in the
      source. *)

From stdpp Require Import gmap strings list fin_maps pretty.
From Stdlib Require Import ZArith Ascii.

Set Warnings "-register-all".

Local Open Scope Z_scope.
Local Open Scope string_scope.

(** ** JavaScript values *)

Module Js.

(** A value as [JSON.parse] builds it, plus [undefined], which property
    reads and absent fields produce.  Numbers are the integers: the handler
    only ever asks a number for its type tag and its truthiness, and [NaN]
    cannot come out of JSON.  An object is the list of its own properties;
    where a key is repeated the last binding is the one that counts, as in
    [JSON.parse] and in object literals. *)
Inductive value : Type :=
  | Undefined
  | Null
  | Bool (b : bool)
  | Num (n : Z)
  | Str (s : string)
  | Arr (elems : list value)
  | Obj (props : list (string * value)).

(** What a [throw] carries.  [TypeError base prop] is the language's own
    error for reading property [prop] of [base] when [base] is [undefined]
    or [null]; [Raised msg] is an error raised by a collaborator outside the
    handler (a storage or network fault), identified by its message. *)
Inductive exn : Type :=
  | TypeError (base : value) (prop : string)
  | Raised (msg : string).

(** The outcome of evaluating something that may throw. *)
Inductive Completion (A : Type) : Type :=
  | Normal (a : A)
  | Throw (e : exn).
Arguments Normal {A} a.
Arguments Throw {A} e.

(** ToBoolean. *)
Definition truthy (v : value) : bool :=
  match v with
  | Undefined | Null => false
  | Bool b => b
  | Num n => negb (Z.eqb n 0)
  | Str s => negb (String.eqb s "")
  | Arr _ | Obj _ => true
  end.

(** [typeof v]. *)
Definition typeof (v : value) : string :=
  match v with
  | Undefined => "undefined"
  | Null => "object"
  | Bool _ => "boolean"
  | Num _ => "number"
  | Str _ => "string"
  | Arr _ | Obj _ => "object"
  end.

(** Own-property lookup; the last binding of a repeated key wins. *)
Fixpoint lookup_prop (k : string) (props : list (string * value)) : option value :=
  match props with
  | [] => None
  | (k', v) :: rest =>
      match lookup_prop k rest with
      | Some w => Some w
      | None => if String.eqb k k' then Some v else None
      end
  end.

(** [v.k] for the property names the sources read ([jsonrpc], [method],
    [params], [id], [name], [arguments], [thingToRemember],
    [informationToGet]).  None of them is defined on a built-in prototype,
    so on a primitive or an array the read yields [undefined]; on
    [undefined] and [null] it throws. *)
Definition get (v : value) (k : string) : Completion value :=
  match v with
  | Undefined | Null => Throw (TypeError v k)
  | Obj props => Normal (default Undefined (lookup_prop k props))
  | Bool _ | Num _ | Str _ | Arr _ => Normal Undefined
  end.

(** [a || b]. *)
Definition or_else (a b : value) : value := if truthy a then a else b.

(** [v === s] for a string literal [s]. *)
Definition is_string (s : string) (v : value) : bool :=
  match v with
  | Str s' => String.eqb s' s
  | _ => false
  end.

(** [haystack.includes(needle)]. *)
Definition includes (haystack needle : string) : bool :=
  match String.index 0 needle haystack with
  | Some _ => true
  | None => false
  end.

End Js.

(** ** The session manager Durable Object *)

Module SessionManager.

Import Js.

(** [interface SessionData]. *)
Record SessionData : Type := mkSessionData {
  id : string;
  userId : string;
  createdAt : Z;
  lastActivity : Z;
  metadata : gmap string value;
}.

(** [this.ctx.storage]: the object's durable key-value store. *)
Abbreviation Storage := (gmap string SessionData).

(** The fields the handlers destructure from [await request.json()].  The
    callers send string identifiers and a record (or nothing) as
    [metadata], which is what [SessionData] declares. *)
Record Payload : Type := mkPayload {
  p_sessionId : string;
  p_userId : string;
  p_metadata : option (gmap string value);
}.

Record Request : Type := mkRequest {
  rq_method : string;
  rq_path : string;
  rq_body : Payload;
}.

Inductive Body : Type :=
  | Text (s : string)
  | SessionJson (s : SessionData)
  | CleanupJson (cleanedSessions activeSessions : nat).

Record Response : Type := mkResponse {
  status : Z;
  body : Body;
}.

(** [response.ok]. *)
Definition ok (r : Response) : bool := Z.leb 200 (status r) && Z.leb (status r) 299.

(** [{ ...a, ...b }]: the keys of [b] override those of [a]. *)
Definition spread (a b : gmap string value) : gmap string value := b ∪ a.

(** Every operation takes the reading of [Date.now()] it observes; the
    runtime does not advance the clock while one event is being handled, so
    the two readings in [createSession] are the same. *)
Definition createSession (now : Z) (p : Payload) (st : Storage) : Response * Storage :=
  let sessionData :=
    {| id := p_sessionId p;
       userId := p_userId p;
       createdAt := now;
       lastActivity := now;
       metadata := default ∅ (p_metadata p) |} in
  (mkResponse 200 (SessionJson sessionData), <[p_sessionId p := sessionData]> st).

Definition updateSession (now : Z) (p : Payload) (st : Storage) : Response * Storage :=
  match st !! p_sessionId p with
  | None => (mkResponse 404 (Text "Session not found"), st)
  | Some session =>
      let session :=
        {| id := id session;
           userId := userId session;
           createdAt := createdAt session;
           lastActivity := now;
           metadata := match p_metadata p with
                       | Some patch => spread (metadata session) patch
                       | None => metadata session
                       end |} in
      (mkResponse 200 (SessionJson session), <[p_sessionId p := session]> st)
  end.

Definition getSession (now : Z) (p : Payload) (st : Storage) : Response * Storage :=
  match st !! p_sessionId p with
  | None => (mkResponse 404 (Text "Session not found"), st)
  | Some session =>
      let session :=
        {| id := id session;
           userId := userId session;
           createdAt := createdAt session;
           lastActivity := now;
           metadata := metadata session |} in
      (mkResponse 200 (SessionJson session), <[p_sessionId p := session]> st)
  end.

Definition deleteSession (p : Payload) (st : Storage) : Response * Storage :=
  match st !! p_sessionId p with
  | None => (mkResponse 404 (Text "Session not found"), st)
  | Some _ => (mkResponse 200 (Text "Session deleted"), delete (p_sessionId p) st)
  end.

Definition maxAge : Z := 24 * 60 * 60 * 1000.

(** The state of the sweep loop: the storage and the two counters. *)
Record Sweep : Type := mkSweep {
  sw_storage : Storage;
  cleanedCount : nat;
  activeSessions : nat;
}.

(** One iteration of [for (const [sessionId, session] of sessions)]. *)
Definition sweep_step (now : Z) (acc : Sweep) (entry : string * SessionData) : Sweep :=
  let '(sessionId, session) := entry in
  if Z.gtb (now - lastActivity session) maxAge
  then mkSweep (delete sessionId (sw_storage acc)) (S (cleanedCount acc)) (activeSessions acc)
  else mkSweep (sw_storage acc) (cleanedCount acc) (S (activeSessions acc)).

(** The loop runs over the snapshot that [storage.list()] returned. *)
Definition sweep (now : Z) (st : Storage) : Sweep :=
  foldl (sweep_step now) (mkSweep st 0 0) (map_to_list st).

Definition cleanupSessions (now : Z) (st : Storage) : Response * Storage :=
  let r := sweep now st in
  (mkResponse 200 (CleanupJson (cleanedCount r) (activeSessions r)), sw_storage r).

(** [fetch]: the router.  Its [catch] arm (status 500) has no source here:
    the handlers above are total on typed payloads. *)
Definition fetch (now : Z) (request : Request) (st : Storage) : Response * Storage :=
  let method := rq_method request in
  let path := rq_path request in
  let not_found := (mkResponse 404 (Text "Not found"), st) in
  if String.eqb method "POST" then
    if String.eqb path "/create" then createSession now (rq_body request) st
    else if String.eqb path "/update" then updateSession now (rq_body request) st
    else if String.eqb path "/get" then getSession now (rq_body request) st
    else not_found
  else if String.eqb method "DELETE" then
    if String.eqb path "/delete" then deleteSession (rq_body request) st
    else not_found
  else if String.eqb method "GET" then
    if String.eqb path "/cleanup" then cleanupSessions now st
    else not_found
  else not_found.

(** *** Vocabulary of the statements about the store *)

(** The sweep's test: the last activity is more than [maxAge] old. *)
Definition expired (now : Z) (session : SessionData) : Prop :=
  now - lastActivity session > maxAge.

#[export] Instance expired_dec now session : Decision (expired now session).
Proof. unfold expired. apply _. Defined.

(** The sessions a sweep at [now] leaves, and those it removes. *)
Definition kept (now : Z) (st : Storage) : Storage :=
  filter (fun entry => ¬ expired now entry.2) st.

Definition swept (now : Z) (st : Storage) : Storage :=
  filter (fun entry => expired now entry.2) st.

(** [s'] is [s] as far as the fields fixed at creation go. *)
Definition same_identity (s s' : SessionData) : Prop :=
  id s' = id s /\ userId s' = userId s /\ createdAt s' = createdAt s.

End SessionManager.

(** ** The Streamable HTTP handler *)

Module StreamableHttp.

Import Js.

(** *** Wire types *)

Record TextContent : Type := mkTextContent {
  type : string;
  text : string;
}.

(** [interface ToolResult]. *)
Record ToolResult : Type := mkToolResult {
  content : list TextContent;
  isError : option bool;
}.

(** The [error] member of a response. [data] holds [String(error)]. *)
Record RpcError : Type := mkRpcError {
  code : Z;
  message : string;
  data : option string;
}.

(** What the handlers put in [result]: a tool result or a literal object. *)
Inductive Result : Type :=
  | OfTool (r : ToolResult)
  | OfValue (v : value).

(** [interface JsonRpcResponse]; an optional member is an [option]. *)
Record JsonRpcResponse : Type := mkJsonRpcResponse {
  jsonrpc : string;
  result : option Result;
  error : option RpcError;
  id : value;
}.

(** What [JSON.stringify] is applied to. *)
Inductive Doc : Type :=
  | RpcDoc (r : JsonRpcResponse)
  | ValueDoc (v : value).

(** The body of an HTTP response: nothing, a plain text, the JSON text of a
    document, one SSE frame [data: <json>], or a stream that has emitted one
    such frame and stays open. *)
Inductive Body : Type :=
  | Empty
  | Plain (s : string)
  | Json (d : Doc)
  | SseFrame (d : Doc)
  | SseStream (first : Doc).

Record Response : Type := mkResponse {
  status : Z;
  headers : gmap string string;
  body : Body;
}.

(** The inbound request: [json] is what [request.json()] resolves to, and
    [None] when it rejects because the body is not JSON text; [query] lists
    the names in [url.searchParams].  Header names are spelled as the
    handler spells them. *)
Record Request : Type := mkRequest {
  method : string;
  query : list string;
  rq_headers : gmap string string;
  json : option value;
}.

(** *** Collaborators *)

(** A search hit of [searchMemories]: its text and its score, a number
    (modelled as the numbers of [Js.value] are) that is only ever rendered
    with [toFixed]. *)
Record Memory : Type := mkMemory {
  m_content : string;
  m_score : Z;
}.

(** The conversions of the language runtime that the handler relies on:
    ToString on a value (template literals and [+] with a string), which
    may throw on an object; [String(error)] on the errors thrown here, which
    does not; [Number.prototype.toFixed]. *)
Record Runtime : Type := mkRuntime {
  ToString : value -> Completion string;
  String_of_error : exn -> string;
  toFixed : Z -> nat -> string;
}.

(** The bindings of [env] and the imported collaborators, as they answer
    while one request is handled: the memory backends of [utils/vectorize]
    and [utils/db], whether a call through the [SESSION_MANAGER] stub
    rejects before reaching the object, the identifier [uuidv4()] draws and
    the clock reading of the Durable Object. *)
Record Env : Type := mkEnv {
  storeMemory : value -> string -> Completion string;
  storeMemoryInD1 : value -> string -> string -> Completion unit;
  searchMemories : value -> string -> Completion (list Memory);
  session_manager_fault : SessionManager.Request -> option exn;
  uuidv4 : unit -> string;
  Date_now : unit -> Z;
}.

(** *** Effects *)

(** What a run leaves behind besides its result: console output, and (as
    ghost instrumentation) the entries into the dispatcher and the
    backends. *)
Inductive Event : Type :=
  | Console (level : string) (msg : string) (detail : option exn)
  | Invoked (fn : string).

Record World : Type := mkWorld {
  storage : gmap string SessionManager.SessionData;
  trace : list Event;
}.

(** State and exceptions: a thrown error keeps the effects made so far. *)
Definition M (A : Type) : Type := World -> Completion A * World.

#[export] Instance Completion_ret : MRet Completion := @Normal.
#[export] Instance Completion_bind : MBind Completion := fun A B f c =>
  match c with
  | Normal a => f a
  | Throw e => Throw e
  end.

#[export] Instance M_ret : MRet M := fun A a w => (Normal a, w).
#[export] Instance M_bind : MBind M := fun A B f m w =>
  match m w with
  | (Normal a, w') => f a w'
  | (Throw e, w') => (Throw e, w')
  end.

Definition lift {A : Type} (c : Completion A) : M A := fun w => (c, w).

Definition emit (e : Event) : M unit :=
  fun w => (Normal tt, mkWorld (storage w) (trace w ++ [e])).

(** [try { body } catch (error) { handler }]. *)
Definition try_catch {A : Type} (body : M A) (handler : exn -> M A) : M A :=
  fun w =>
    match body w with
    | (Normal a, w') => (Normal a, w')
    | (Throw e, w') => handler e w'
    end.

(** *** The class [StreamableHttpHandler] *)

Section Handler.

(** [constructor(private env: Env, private userId: string)], and the
    runtime the class runs on. *)
Variable rt : Runtime.
Variable env : Env.
Variable userId : string.

Definition dquote : string := String "034"%char EmptyString.
Definition newline : string := String "010"%char EmptyString.

(** A call through the Durable Object stub: it rejects when the object
    cannot be reached, and otherwise runs [SessionManager.fetch] on the
    object's storage. *)
Definition session_manager_fetch (rq : SessionManager.Request) : M SessionManager.Response :=
  fun w =>
    match session_manager_fault env rq with
    | Some e => (Throw e, w)
    | None =>
        let '(r, st) := SessionManager.fetch (Date_now env tt) rq (storage w) in
        (Normal r, mkWorld st (trace w))
    end.

Definition addCorsHeaders (h : gmap string string) : gmap string string :=
  <["Access-Control-Expose-Headers" := "Mcp-Session-Id"]>
  (<["Access-Control-Allow-Headers" := "Content-Type, Accept, Mcp-Session-Id, Last-Event-ID"]>
  (<["Access-Control-Allow-Methods" := "GET, POST, OPTIONS"]>
  (<["Access-Control-Allow-Origin" := "*"]> h))).

Definition createCorsResponse : Response :=
  let h := addCorsHeaders ∅ in
  let h := <["Access-Control-Allow-Methods" := "GET, POST, OPTIONS"]> h in
  let h := <["Access-Control-Allow-Headers" := "Content-Type, Accept, Mcp-Session-Id, Last-Event-ID"]> h in
  mkResponse 204 h Empty.

Definition createErrorResponse (err : RpcError) (i : value) (sessionId : string) : Response :=
  let response := mkJsonRpcResponse "2.0" None (Some err) i in
  let h := <["Mcp-Session-Id" := sessionId]> (<["Content-Type" := "application/json"]> ∅) in
  mkResponse 400 (addCorsHeaders h) (Json (RpcDoc response)).

Definition createJsonResponse (res : JsonRpcResponse) (sessionId : string) : Response :=
  let h := <["Mcp-Session-Id" := sessionId]> (<["Content-Type" := "application/json"]> ∅) in
  mkResponse 202 (addCorsHeaders h) (Json (RpcDoc res)).

Definition sseHeaders (sessionId : string) : gmap string string :=
  <["Mcp-Session-Id" := sessionId]>
  (<["Connection" := "keep-alive"]>
  (<["Cache-Control" := "no-cache"]>
  (<["Content-Type" := "text/event-stream"]> ∅))).

Definition createSSEResponse (res : JsonRpcResponse) (sessionId : string) : Response :=
  mkResponse 200 (addCorsHeaders (sseHeaders sessionId)) (SseFrame (RpcDoc res)).

Definition createSSEStream (sessionId : string) : Response :=
  let message :=
    Obj [("jsonrpc", Str "2.0");
         ("method", Str "notifications/initialized");
         ("params", Obj [("sessionId", Str sessionId)])] in
  mkResponse 200 (addCorsHeaders (sseHeaders sessionId)) (SseStream (ValueDoc message)).

(** The capability document, shared by [initialize] and the probe. *)
Definition capabilities : value :=
  Obj [("protocolVersion", Str "2025-03-26");
       ("capabilities",
         Obj [("tools", Obj []); ("resources", Obj []);
              ("prompts", Obj []); ("logging", Obj [])]);
       ("serverInfo", Obj [("name", Str "MCP Memory"); ("version", Str "1.0.0")])].

Definition createCapabilitiesResponse (sessionId : string) : Response :=
  let h := <["Mcp-Session-Id" := sessionId]> (<["Content-Type" := "application/json"]> ∅) in
  mkResponse 200 (addCorsHeaders h) (Json (ValueDoc capabilities)).

Definition shouldUseSSE (request : value) (response : JsonRpcResponse) : bool := false.

(** [body && body.jsonrpc === "2.0" && typeof body.method === "string" &&
    (body.id === undefined || ...)], with [&&] and [||] short-circuiting. *)
Definition isValidJsonRpc (body : value) : Completion bool :=
  if negb (truthy body) then Normal false else
  v ← get body "jsonrpc";
  if negb (is_string "2.0" v) then Normal false else
  m ← get body "method";
  if negb (String.eqb (typeof m) "string") then Normal false else
  i ← get body "id";
  match i with
  | Undefined => Normal true
  | _ =>
      if String.eqb (typeof i) "string" then Normal true else
      if String.eqb (typeof i) "number" then Normal true else
      match i with
      | Null => Normal true
      | _ => Normal false
      end
  end.

Definition textResult (t : string) (err : option bool) : ToolResult :=
  mkToolResult [mkTextContent "text" t] err.

Definition addToMCPMemory (thingToRemember : value) : M ToolResult :=
  try_catch
    (emit (Invoked "storeMemory");;
     memoryId ← lift (storeMemory env thingToRemember userId);
     emit (Invoked "storeMemoryInD1");;
     lift (storeMemoryInD1 env thingToRemember userId memoryId);;
     shown ← lift (ToString rt thingToRemember);
     emit (Console "log"
             ("Memory stored successfully in Vectorize and D1 with ID: " +:+ memoryId
              +:+ ", content: " +:+ dquote +:+ shown +:+ dquote) None);;
     shown ← lift (ToString rt thingToRemember);
     mret (textResult ("Remembered: " +:+ shown) None))
    (fun e =>
       emit (Console "error" "Error storing memory:" (Some e));;
       mret (textResult ("Failed to remember: " +:+ String_of_error rt e) (Some true))).

Definition showMemory (m : Memory) : string :=
  m_content m +:+ " (score: " +:+ toFixed rt (m_score m) 4 +:+ ")".

Definition searchMCPMemory (informationToGet : value) : M ToolResult :=
  try_catch
    (shown ← lift (ToString rt informationToGet);
     emit (Console "log" ("Searching with query: " +:+ dquote +:+ shown +:+ dquote) None);;
     emit (Invoked "searchMemories");;
     memories ← lift (searchMemories env informationToGet userId);
     emit (Console "log"
             ("Search returned " +:+ pretty (length memories) +:+ " matches") None);;
     if Nat.ltb 0 (length memories)
     then mret (textResult ("Found memories:" +:+ newline
                            +:+ String.concat newline (map showMemory memories)) None)
     else mret (textResult "No relevant memories found." None))
    (fun e =>
       emit (Console "error" "Error searching memories:" (Some e));;
       mret (textResult ("Failed to search memories: " +:+ String_of_error rt e) (Some true))).

Definition handleToolCall (request : value) : M JsonRpcResponse :=
  params ← lift (get request "params");
  name ← lift (get params "name");
  args ← lift (get params "arguments");
  if is_string "addToMCPMemory" name then
    thingToRemember ← lift (get args "thingToRemember");
    res ← addToMCPMemory thingToRemember;
    i ← lift (get request "id");
    mret (mkJsonRpcResponse "2.0" (Some (OfTool res)) None (or_else i Null))
  else if is_string "searchMCPMemory" name then
    informationToGet ← lift (get args "informationToGet");
    res ← searchMCPMemory informationToGet;
    i ← lift (get request "id");
    mret (mkJsonRpcResponse "2.0" (Some (OfTool res)) None (or_else i Null))
  else
    shown ← lift (ToString rt name);
    i ← lift (get request "id");
    mret (mkJsonRpcResponse "2.0" None
            (Some (mkRpcError (-32601) ("Unknown tool: " +:+ shown) None))
            (or_else i Null)).

Definition toolSchema (name description field fieldDescription : string) : value :=
  Obj [("name", Str name);
       ("description", Str description);
       ("inputSchema",
         Obj [("type", Str "object");
              ("properties",
                Obj [(field, Obj [("type", Str "string");
                                  ("description", Str fieldDescription)])]);
              ("required", Arr [Str field])])].

(** The catalogue that [tools/list] answers with. *)
Definition tools : value :=
  Arr [toolSchema "addToMCPMemory"
         "Store important user information in persistent memory"
         "thingToRemember" "Information to store in memory";
       toolSchema "searchMCPMemory"
         "Search for relevant information in user's persistent memory"
         "informationToGet" "Query to search for in memory"].

Definition handleToolsList (request : value) : M JsonRpcResponse :=
  i ← lift (get request "id");
  mret (mkJsonRpcResponse "2.0" (Some (OfValue (Obj [("tools", tools)]))) None (or_else i Null)).

Definition handleInitialize (request : value) : M JsonRpcResponse :=
  i ← lift (get request "id");
  mret (mkJsonRpcResponse "2.0" (Some (OfValue capabilities)) None (or_else i Null)).

(** The dispatcher.  Its entry is recorded in the trace. *)
Definition processJsonRpcRequest (request : value) : M JsonRpcResponse :=
  emit (Invoked "processJsonRpcRequest");;
  try_catch
    (m ← lift (get request "method");
     if is_string "tools/call" m then handleToolCall request
     else if is_string "tools/list" m then handleToolsList request
     else if is_string "initialize" m then handleInitialize request
     else
       i ← lift (get request "id");
       mret (mkJsonRpcResponse "2.0" None
               (Some (mkRpcError (-32601) "Method not found" None))
               (or_else i Null)))
    (fun e =>
       emit (Console "error" "Error processing JSON-RPC request:" (Some e));;
       i ← lift (get request "id");
       mret (mkJsonRpcResponse "2.0" None
               (Some (mkRpcError (-32603) "Internal error" (Some (String_of_error rt e))))
               (or_else i Null))).

(** The first half of [getOrCreateSession]: the presented identifier when
    the store answers the lookup with an [ok] response, and nothing when no
    identifier is presented, when the answer is not [ok], or when the call
    throws. *)
Definition lookupSession (request : Request) : M (option string) :=
  match rq_headers request !! "Mcp-Session-Id" with
  | Some sessionHeader =>
      if negb (String.eqb sessionHeader "") then
        try_catch
          (response ← session_manager_fetch
                        (SessionManager.mkRequest "POST" "/get"
                           (SessionManager.mkPayload sessionHeader "" None));
           if SessionManager.ok response then mret (Some sessionHeader) else mret None)
          (fun e =>
             emit (Console "warn" "Failed to retrieve session:" (Some e));;
             mret None)
      else mret None
  | None => mret None
  end.

Definition getOrCreateSession (request : Request) : M string :=
  found ← lookupSession request;
  match found with
  | Some sessionHeader => mret sessionHeader
  | None =>
      let sessionId := uuidv4 env tt in
      try_catch
        (session_manager_fetch
           (SessionManager.mkRequest "POST" "/create"
              (SessionManager.mkPayload sessionId userId (Some ∅)));;
         mret tt)
        (fun e =>
           emit (Console "warn" "Failed to create session in Durable Object:" (Some e));;
           mret tt);;
      mret sessionId
  end.

(** [await request.json()]. *)
Definition request_json (request : Request) : M value :=
  match json request with
  | Some body => mret body
  | None => lift (Throw (Raised "SyntaxError"))
  end.

Definition handlePost (request : Request) (sessionId : string) : M Response :=
  let acceptHeader := default "" (rq_headers request !! "Accept") in
  let supportsJson := includes acceptHeader "application/json" in
  let supportsSSE := includes acceptHeader "text/event-stream" in
  try_catch
    (body ← request_json request;
     valid ← lift (isValidJsonRpc body);
     if negb valid then
       i ← lift (get body "id");
       mret (createErrorResponse (mkRpcError (-32600) "Invalid Request" None)
               (or_else i Null) sessionId)
     else
       res ← processJsonRpcRequest body;
       if supportsSSE && shouldUseSSE body res then mret (createSSEResponse res sessionId)
       else if supportsJson then mret (createJsonResponse res sessionId)
       else mret (createJsonResponse res sessionId))
    (fun e =>
       emit (Console "error" "Error processing POST request:" (Some e));;
       mret (createErrorResponse (mkRpcError (-32700) "Parse error" None) Null sessionId)).

Definition handleGet (request : Request) (sessionId : string) : M Response :=
  if bool_decide ("capabilities" ∈ query request)
  then mret (createCapabilitiesResponse sessionId)
  else mret (createSSEStream sessionId).

Definition handleRequest (request : Request) : M Response :=
  if String.eqb (method request) "OPTIONS" then mret createCorsResponse else
  sessionId ← getOrCreateSession request;
  if String.eqb (method request) "POST" then handlePost request sessionId
  else if String.eqb (method request) "GET" then handleGet request sessionId
  else mret (mkResponse 405 ∅ (Plain "Method not allowed")).

End Handler.

(** *** Vocabulary of the statements about the handler *)

(** Exactly one of [result] and [error] is populated. *)
Definition exactly_one (r : JsonRpcResponse) : bool :=
  match result r, error r with
  | Some _, None | None, Some _ => true
  | _, _ => false
  end.

Definition error_code (r : JsonRpcResponse) : option Z := code <$> error r.

(** [o.k] on an object given by its properties. *)
Definition prop (props : list (string * value)) (k : string) : value :=
  default Undefined (lookup_prop k props).

(** An [id] that is present and is none of a string, a number or [null]. *)
Definition invalid_id (v : value) : bool :=
  match v with
  | Bool _ | Arr _ | Obj _ => true
  | Undefined | Null | Num _ | Str _ => false
  end.

(** The three ways an object can fail envelope validation. *)
Definition fails_validation (props : list (string * value)) : Prop :=
  prop props "jsonrpc" ≠ Str "2.0"
  \/ (forall s, prop props "method" ≠ Str s)
  \/ invalid_id (prop props "id") = true.

(** A JSON text that is not an object: [null], a boolean, a number, a
    string or an array. *)
Definition non_object (v : value) : bool :=
  match v with
  | Null | Bool _ | Num _ | Str _ | Arr _ => true
  | Undefined | Obj _ => false
  end.

(** The two errors of the classifier and the two of the dispatcher. *)
Definition parse_error : RpcError := mkRpcError (-32700) "Parse error" None.
Definition invalid_request : RpcError := mkRpcError (-32600) "Invalid Request" None.
Definition method_not_found : RpcError := mkRpcError (-32601) "Method not found" None.
Definition unknown_tool (shown : string) : RpcError :=
  mkRpcError (-32601) ("Unknown tool: " +:+ shown) None.

(** An envelope that carries an error and no result. *)
Definition error_envelope (err : RpcError) (i : value) : JsonRpcResponse :=
  mkJsonRpcResponse "2.0" None (Some err) i.

(** [undefined] or [null]. *)
Definition nullish (v : value) : bool :=
  match v with
  | Undefined | Null => true
  | _ => false
  end.

(** The two tools of the catalogue, with the argument each one reads and
    the text its failure message starts with. *)
Inductive Tool : Type := AddToMCPMemory | SearchMCPMemory.

Definition tool_name (t : Tool) : string :=
  match t with
  | AddToMCPMemory => "addToMCPMemory"
  | SearchMCPMemory => "searchMCPMemory"
  end.

Definition tool_argument (t : Tool) : string :=
  match t with
  | AddToMCPMemory => "thingToRemember"
  | SearchMCPMemory => "informationToGet"
  end.

Definition failure_text (t : Tool) : string :=
  match t with
  | AddToMCPMemory => "Failed to remember: "
  | SearchMCPMemory => "Failed to search memories: "
  end.

(** The backend operation behind a tool throws on argument [arg]: one of
    the two stores for [addToMCPMemory], the search for [searchMCPMemory]. *)
Definition backend_fails (env : Env) (userId : string) (t : Tool) (arg : value) : Prop :=
  match t with
  | AddToMCPMemory =>
      (exists e, storeMemory env arg userId = Throw e)
      \/ (exists memoryId e, storeMemory env arg userId = Normal memoryId
                        /\ storeMemoryInD1 env arg userId memoryId = Throw e)
  | SearchMCPMemory => exists e, searchMemories env arg userId = Throw e
  end.

(** A run that only adds to the trace. *)
Definition extends (w w' : World) : Prop :=
  storage w' = storage w /\ exists more, trace w' = (trace w ++ more)%list.

(** What [handleToolCall] may end in: a response that populates exactly one
    member, echoes [i || null] and is not an Invalid Request error, or a
    throw. *)
Definition well_formed (i : value) (c : Completion JsonRpcResponse) : Prop :=
  match c with
  | Normal resp =>
      exactly_one resp = true /\ id resp = or_else i Null
      /\ error_code resp ≠ Some (-32600)
  | Throw _ => True
  end.

(** The world once the dispatcher has been entered. *)
Definition entered (w : World) : World :=
  mkWorld (storage w) (trace w ++ [Invoked "processJsonRpcRequest"]).

(** The envelope the dispatcher's [catch] builds from a thrown [e]. *)
Definition internal_error (rt : Runtime) (e : exn) (i : value) : JsonRpcResponse :=
  mkJsonRpcResponse "2.0" None
    (Some (mkRpcError (-32603) "Internal error" (Some (String_of_error rt e))))
    (or_else i Null).

(** The world once [handlePost]'s [catch] has logged [e]. *)
Definition parse_error_logged (w : World) (e : exn) : World :=
  mkWorld (storage w)
    (trace w ++ [Console "error" "Error processing POST request:" (Some e)]).

(** The run from [w] to [w'] entered the dispatcher. *)
Definition dispatched (w w' : World) : Prop :=
  exists more, trace w' = (trace w ++ Invoked "processJsonRpcRequest" :: more)%list.

(** The session identifier the request presents. *)
Definition presented (request : Request) : option string :=
  rq_headers request !! "Mcp-Session-Id".

Definition get_request (sessionId : string) : SessionManager.Request :=
  SessionManager.mkRequest "POST" "/get" (SessionManager.mkPayload sessionId "" None).

Definition create_request (sessionId userId : string) : SessionManager.Request :=
  SessionManager.mkRequest "POST" "/create"
    (SessionManager.mkPayload sessionId userId (Some ∅)).

Definition reachable (env : Env) (rq : SessionManager.Request) : bool :=
  match session_manager_fault env rq with
  | None => true
  | Some _ => false
  end.

(** The lookup of the presented identifier succeeds: one is presented, the
    store can be reached, and it holds a session under that identifier. *)
Definition lookup_succeeds (env : Env) (request : Request) (w : World) : bool :=
  match presented request with
  | Some h =>
      negb (String.eqb h "") && reachable env (get_request h)
      && bool_decide (is_Some (storage w !! h))
  | None => false
  end.

(** The record [createSession] stores for a fresh identifier. *)
Definition new_session (env : Env) (sessionId userId : string) : SessionManager.SessionData :=
  SessionManager.mkSessionData sessionId userId (Date_now env tt) (Date_now env tt) ∅.

End StreamableHttp.

(** ** Sample collaborators and requests *)

Module Samples.

Import Js StreamableHttp.

(** ToString on the values of JSON: exact on primitives, on arrays and on
    objects (which throw when they carry an own [toString]). *)
Fixpoint to_string (v : value) : Completion string :=
  match v with
  | Undefined => Normal "undefined"
  | Null => Normal "null"
  | Bool true => Normal "true"
  | Bool false => Normal "false"
  | Num n => Normal (pretty n)
  | Str s => Normal s
  | Arr elems =>
      (fix join (l : list value) : Completion string :=
         match l with
         | [] => Normal ""
         | x :: rest =>
             shown ← (if nullish x then Normal "" else to_string x);
             match rest with
             | [] => Normal shown
             | _ => tail ← join rest; Normal (shown +:+ "," +:+ tail)
             end
         end) elems
  | Obj props =>
      match lookup_prop "toString" props with
      | Some _ => Throw (Raised "TypeError: Cannot convert object to primitive value")
      | None => Normal "[object Object]"
      end
  end.

Definition error_text (e : exn) : string :=
  match e with
  | TypeError base p =>
      "TypeError: Cannot read properties of "
      +:+ (if base is Null then "null" else "undefined")
      +:+ " (reading '" +:+ p +:+ "')"
  | Raised msg => msg
  end.

Definition runtime : Runtime :=
  mkRuntime to_string error_text
    (fun n digits => pretty n +:+ (if digits is O then "" else "." +:+ String.concat "" (replicate digits "0"))).

Definition minted : string := "9f1c2d3e-4b5a-4c6d-8e7f-012345678901".

(** Every collaborator answers. *)
Definition env_up : Env :=
  mkEnv (fun _ _ => Normal "memory-1")
        (fun _ _ _ => Normal tt)
        (fun _ _ => Normal [mkMemory "likes tea" 1])
        (fun _ => None)
        (fun _ => minted)
        (fun _ => 1000).

(** Every collaborator throws. *)
Definition env_down : Env :=
  mkEnv (fun _ _ => Throw (Raised "Error: Vectorize unavailable"))
        (fun _ _ _ => Throw (Raised "Error: D1 unavailable"))
        (fun _ _ => Throw (Raised "Error: Vectorize unavailable"))
        (fun _ => Some (Raised "Error: Durable Object unreachable"))
        (fun _ => minted)
        (fun _ => 1000).

Definition world0 : World := mkWorld ∅ [].

Definition envelope (m : string) (rest : list (string * value)) : value :=
  Obj (("jsonrpc", Str "2.0") :: ("method", Str m) :: rest).

Definition post (hs : gmap string string) (body : option value) : Request :=
  mkRequest "POST" [] hs body.

Definition stale : SessionManager.SessionData :=
  SessionManager.mkSessionData "s1" "alice" 0 0 ∅.

Definition recent : SessionManager.SessionData :=
  SessionManager.mkSessionData "s2" "alice" 0 86400000 {["client" := Str "cursor"]}.

End Samples.

(** ** The earlier revision of the session manager

    The revision that keeps an in-memory [Map] of the sessions beside the
    durable storage: the constructor fills the map from the storage, every
    handler looks a session up in the map and writes to both.  The awaited
    storage calls are taken to resolve: a handler writes the map first and
    the storage second, and a rejected storage call, which would leave the
    map ahead of the storage and reach the [catch] arm of [fetch] (status
    500), is outside this model. *)

Module LegacySessionManager.

Import Js SessionManager.

(** [this.sessions] and [this.ctx.storage]. *)
Record State : Type := mkState {
  sessions : gmap string SessionData;
  storage : gmap string SessionData;
}.

(** The constructor: [for (const [key, value] of stored)
    this.sessions.set(key, value)]. *)
Definition load (stored : Storage) : State :=
  mkState (foldl (fun m entry => <[entry.1 := entry.2]> m) ∅ (map_to_list stored)) stored.

Definition createSession (now : Z) (p : Payload) (s : State) : Response * State :=
  let sessionData :=
    {| id := p_sessionId p;
       userId := p_userId p;
       createdAt := now;
       lastActivity := now;
       metadata := default ∅ (p_metadata p) |} in
  (mkResponse 200 (SessionJson sessionData),
   mkState (<[p_sessionId p := sessionData]> (sessions s))
           (<[p_sessionId p := sessionData]> (storage s))).

Definition updateSession (now : Z) (p : Payload) (s : State) : Response * State :=
  match sessions s !! p_sessionId p with
  | None => (mkResponse 404 (Text "Session not found"), s)
  | Some session =>
      let session :=
        {| id := id session;
           userId := userId session;
           createdAt := createdAt session;
           lastActivity := now;
           metadata := match p_metadata p with
                       | Some patch => spread (metadata session) patch
                       | None => metadata session
                       end |} in
      (mkResponse 200 (SessionJson session),
       mkState (<[p_sessionId p := session]> (sessions s))
               (<[p_sessionId p := session]> (storage s)))
  end.

Definition getSession (now : Z) (p : Payload) (s : State) : Response * State :=
  match sessions s !! p_sessionId p with
  | None => (mkResponse 404 (Text "Session not found"), s)
  | Some session =>
      let session :=
        {| id := id session;
           userId := userId session;
           createdAt := createdAt session;
           lastActivity := now;
           metadata := metadata session |} in
      (mkResponse 200 (SessionJson session),
       mkState (<[p_sessionId p := session]> (sessions s))
               (<[p_sessionId p := session]> (storage s)))
  end.

Definition deleteSession (p : Payload) (s : State) : Response * State :=
  match sessions s !! p_sessionId p with
  | None => (mkResponse 404 (Text "Session not found"), s)
  | Some _ =>
      (mkResponse 200 (Text "Session deleted"),
       mkState (delete (p_sessionId p) (sessions s)) (delete (p_sessionId p) (storage s)))
  end.

(** The state of the sweep loop: the map, the storage and the counter. *)
Record Sweep : Type := mkSweep {
  sw_sessions : gmap string SessionData;
  sw_storage : gmap string SessionData;
  cleanedCount : nat;
}.

(** One iteration of [for (const [sessionId, session] of
    this.sessions.entries())]; deleting the entry being visited does not
    disturb the visit of the others. *)
Definition sweep_step (now : Z) (acc : Sweep) (entry : string * SessionData) : Sweep :=
  let '(sessionId, session) := entry in
  if Z.gtb (now - lastActivity session) maxAge
  then mkSweep (delete sessionId (sw_sessions acc)) (delete sessionId (sw_storage acc))
               (S (cleanedCount acc))
  else acc.

Definition sweep (now : Z) (s : State) : Sweep :=
  foldl (sweep_step now) (mkSweep (sessions s) (storage s) 0) (map_to_list (sessions s)).

(** [activeSessions] is [this.sessions.size] after the loop. *)
Definition cleanupSessions (now : Z) (s : State) : Response * State :=
  let r := sweep now s in
  (mkResponse 200 (CleanupJson (cleanedCount r) (size (sw_sessions r))),
   mkState (sw_sessions r) (sw_storage r)).

Definition fetch (now : Z) (request : Request) (s : State) : Response * State :=
  let method := rq_method request in
  let path := rq_path request in
  let not_found := (mkResponse 404 (Text "Not found"), s) in
  if String.eqb method "POST" then
    if String.eqb path "/create" then createSession now (rq_body request) s
    else if String.eqb path "/update" then updateSession now (rq_body request) s
    else if String.eqb path "/get" then getSession now (rq_body request) s
    else not_found
  else if String.eqb method "DELETE" then
    if String.eqb path "/delete" then deleteSession (rq_body request) s
    else not_found
  else if String.eqb method "GET" then
    if String.eqb path "/cleanup" then cleanupSessions now s
    else not_found
  else not_found.

(** The map mirrors the storage. *)
Definition mirrored (s : State) : Prop := sessions s = storage s.

End LegacySessionManager.

(** ** Vocabulary of the further statements *)

Module Observations.

Import Js StreamableHttp.

(** The five routes of [SessionManager.fetch]. *)
Definition is_route (method path : string) : bool :=
  (String.eqb method "POST"
   && (String.eqb path "/create" || String.eqb path "/update" || String.eqb path "/get"))
  || (String.eqb method "DELETE" && String.eqb path "/delete")
  || (String.eqb method "GET" && String.eqb path "/cleanup").

(** The record a read or an update leaves for [s]. *)
Definition touched (now : Z) (s : SessionManager.SessionData)
    (m : gmap string value) : SessionManager.SessionData :=
  SessionManager.mkSessionData (SessionManager.id s) (SessionManager.userId s)
    (SessionManager.createdAt s) now m.

(** The identifier session resolution settles on. *)
Definition resolved (env : Env) (request : Request) (w : World) : string :=
  match presented request with
  | Some h => if lookup_succeeds env request w then h else uuidv4 env tt
  | None => uuidv4 env tt
  end.

(** The store once session resolution has run. *)
Definition resolved_storage (env : Env) (userId : string) (request : Request) (w : World)
    : gmap string SessionManager.SessionData :=
  if lookup_succeeds env request w then
    match storage w !! resolved env request w with
    | Some s =>
        <[resolved env request w :=
            touched (Date_now env tt) s (SessionManager.metadata s)]> (storage w)
    | None => storage w
    end
  else if reachable env (create_request (uuidv4 env tt) userId)
  then <[uuidv4 env tt := new_session env (uuidv4 env tt) userId]> (storage w)
  else storage w.

(** The headers of every JSON response of the handler. *)
Definition json_headers (sessionId : string) : gmap string string :=
  addCorsHeaders (<["Mcp-Session-Id" := sessionId]> (<["Content-Type" := "application/json"]> ∅)).

(** The names a [tools/list] response advertises. *)
Definition listed_tools (r : JsonRpcResponse) : list value :=
  match result r with
  | Some (OfValue doc) =>
      match get doc "tools" with
      | Normal (Arr entries) =>
          map (fun entry => match get entry "name" with
                            | Normal name => name
                            | Throw _ => Undefined
                            end) entries
      | _ => []
      end
  | _ => []
  end.

(** An event that is console output. *)
Definition is_console (e : Event) : Prop :=
  match e with
  | Console _ _ _ => True
  | Invoked _ => False
  end.

(** The run from [w] to [w'] wrote to the console and did nothing else. *)
Definition only_logged (w w' : World) : Prop :=
  exists more, trace w' = (trace w ++ more)%list /\ Forall is_console more.

(** The body of the request passes the classifier. *)
Definition accepted (request : Request) : bool :=
  match json request with
  | Some body =>
      match isValidJsonRpc body with
      | Normal b => b
      | Throw _ => false
      end
  | None => false
  end.

(** The HTTP status each kind of request is answered with. *)
Definition expected_status (request : Request) : Z :=
  if String.eqb (method request) "OPTIONS" then 204
  else if String.eqb (method request) "POST" then (if accepted request then 202 else 400)
  else if String.eqb (method request) "GET" then 200
  else 405.

(** The frame the idle stream opens with. *)
Definition initialized_notification (sessionId : string) : value :=
  Obj [("jsonrpc", Str "2.0");
       ("method", Str "notifications/initialized");
       ("params", Obj [("sessionId", Str sessionId)])].

(** The console line [addToMCPMemory] writes on success. *)
Definition stored_line (memoryId shown : string) : Event :=
  Console "log"
    ("Memory stored successfully in Vectorize and D1 with ID: " +:+ memoryId
     +:+ ", content: " +:+ dquote +:+ shown +:+ dquote) None.

End Observations.

(** ** Properties of the session store *)

Module SessionStore.

Import Js SessionManager.

Lemma maxAge_is_24_hours : maxAge = 86400000.
Proof. reflexivity. Qed.

Lemma gtb_expired now s :
  Z.gtb (now - lastActivity s) maxAge = bool_decide (expired now s).
Proof.
  unfold expired. destruct (Z.gtb_spec (now - lastActivity s) maxAge);
    symmetry; [apply bool_decide_eq_true | apply bool_decide_eq_false]; lia.
Qed.

(** *** The sweep loop, one field at a time *)

Lemma sweep_fold_counts now l acc :
  cleanedCount (foldl (sweep_step now) acc l)
    = (cleanedCount acc
       + length (filter (fun entry : string * SessionData => expired now entry.2) l))%nat
  /\ activeSessions (foldl (sweep_step now) acc l)
    = (activeSessions acc
       + length (filter (fun entry : string * SessionData => ¬ expired now entry.2) l))%nat.
Proof.
  revert acc. induction l as [|[k s] l IH]; intros acc; cbn [foldl].
  - rewrite !filter_nil. simpl. split; lia.
  - destruct (IH (sweep_step now acc (k, s))) as [-> ->].
    unfold sweep_step. rewrite gtb_expired, !filter_cons. simpl.
    case_bool_decide; simpl.
    + rewrite decide_True, decide_False by tauto. simpl. split; lia.
    + rewrite decide_False, decide_True by tauto. simpl. split; lia.
Qed.

Lemma sweep_fold_removed now l acc k s :
  (k, s) ∈ l -> expired now s ->
  sw_storage (foldl (sweep_step now) acc l) !! k = None.
Proof.
  revert acc. induction l as [|[k' s'] l IH]; intros acc Hin He; cbn [foldl].
  - by apply elem_of_nil in Hin.
  - apply elem_of_cons in Hin as [Heq|Hin]; [|by apply IH].
    simplify_eq. clear IH.
    assert (sw_storage (sweep_step now acc (k', s')) !! k' = None) as Hgone.
    { unfold sweep_step. rewrite gtb_expired, bool_decide_eq_true_2 by done.
      simpl. apply lookup_delete_eq. }
    revert Hgone. generalize (sweep_step now acc (k', s')). clear acc.
    induction l as [|[k s] l IH]; intros acc Hgone; cbn [foldl]; [done|].
    apply IH. unfold sweep_step. destruct (Z.gtb _ _); simpl; [|done].
    destruct (decide (k = k')) as [->|]; [apply lookup_delete_eq|].
    by rewrite lookup_delete_ne.
Qed.

Lemma sweep_fold_retained now l acc k :
  (forall s, (k, s) ∈ l -> ¬ expired now s) ->
  sw_storage (foldl (sweep_step now) acc l) !! k = sw_storage acc !! k.
Proof.
  revert acc. induction l as [|[k' s'] l IH]; intros acc Hl; cbn [foldl]; [done|].
  rewrite IH by (intros s ?; apply Hl; by right).
  unfold sweep_step. rewrite gtb_expired. case_bool_decide as He; simpl; [|done].
  apply lookup_delete_ne. intros ->. by apply (Hl s'); [left|].
Qed.

(** The loop leaves exactly the sessions that are not expired. *)
Lemma sweep_storage now st : sw_storage (sweep now st) = kept now st.
Proof.
  apply map_eq. intros k. unfold sweep, kept. rewrite map_lookup_filter.
  destruct (st !! k) as [s|] eqn:Hk; simpl.
  - destruct (decide (expired now s)) as [He|He].
    + rewrite (sweep_fold_removed now _ _ k s); [|by apply elem_of_map_to_list|done].
      rewrite option_guard_False; [done|]. simpl. tauto.
    + rewrite sweep_fold_retained.
      * by rewrite option_guard_True.
      * intros s' Hin%elem_of_map_to_list. congruence.
  - rewrite sweep_fold_retained; [done|].
    intros s' Hin%elem_of_map_to_list. congruence.
Qed.

Lemma length_filter_map_to_list
    (P : string * SessionData -> Prop) `{!∀ x, Decision (P x)} (st : Storage) :
  length (filter P (map_to_list st)) = size (filter P st).
Proof.
  rewrite map_filter_alt, map_size_list_to_map; [done|].
  eapply NoDup_fmap_fst.
  - intros k x y Hx%list_elem_of_filter Hy%list_elem_of_filter.
    destruct Hx as [_ Hx], Hy as [_ Hy].
    apply elem_of_map_to_list in Hx, Hy. congruence.
  - apply NoDup_filter, NoDup_map_to_list.
Qed.

(** Its counters are the sizes of the two halves of the store. *)
Lemma sweep_counts now st :
  cleanedCount (sweep now st) = size (swept now st)
  /\ activeSessions (sweep now st) = size (kept now st).
Proof.
  unfold sweep.
  destruct (sweep_fold_counts now (map_to_list st) (mkSweep st 0 0)) as [-> ->].
  simpl. by rewrite !length_filter_map_to_list.
Qed.

Lemma kept_lookup now st k s :
  kept now st !! k = Some s <-> st !! k = Some s /\ ¬ expired now s.
Proof. unfold kept. by rewrite map_lookup_filter_Some. Qed.

Lemma swept_lookup now st k s :
  swept now st !! k = Some s <-> st !! k = Some s /\ expired now s.
Proof. unfold swept. by rewrite map_lookup_filter_Some. Qed.

Lemma nothing_to_sweep now st :
  (forall k s, st !! k = Some s -> ¬ expired now s) ->
  swept now st = ∅ /\ kept now st = st.
Proof.
  intros H. split.
  - apply map_eq. intros k. rewrite lookup_empty. apply map_lookup_filter_None.
    right. intros s Hs He. by apply (H k s).
  - apply map_eq. intros k. unfold kept. rewrite map_lookup_filter.
    destruct (st !! k) as [s|] eqn:Hk; simpl; [|done].
    rewrite option_guard_True; [done|]. simpl. by apply (H k).
Qed.

(** A sweep that reads the same clock, or an earlier one, finds nothing. *)
Lemma kept_stays_fresh now1 now2 st k s :
  now2 <= now1 -> kept now1 st !! k = Some s -> ¬ expired now2 s.
Proof. intros Hle [_ Hs]%kept_lookup. unfold expired in *. lia. Qed.

End SessionStore.

(** ** Properties of the handler *)

Module Transport.

Import Js StreamableHttp.

(** One step of a run: expose the first bind. *)
Ltac step := unfold mbind at 1, M_bind at 1; try unfold lift at 1.

Lemma extends_refl w : extends w w.
Proof. split; [done|]. exists []. by rewrite app_nil_r. Qed.

Lemma extends_trans w1 w2 w3 : extends w1 w2 -> extends w2 w3 -> extends w1 w3.
Proof.
  intros [Hs1 [m1 H1]] [Hs2 [m2 H2]]. split; [congruence|].
  exists (m1 ++ m2)%list. by rewrite H2, H1, app_assoc.
Qed.

Lemma extends_emit w e : extends w (mkWorld (storage w) (trace w ++ [e])).
Proof. split; [done|]. by exists [e]. Qed.

#[local] Hint Resolve extends_refl extends_emit : core.
#[local] Hint Extern 3 (extends _ _) => eapply extends_trans; [eassumption|] : core.
#[local] Hint Extern 4 (extends _ _) => eapply extends_trans; [apply extends_emit|] : core.

Lemma get_total v k : truthy v = true -> exists x, get v k = Normal x.
Proof. destruct v; simpl; try discriminate; eauto. Qed.

Lemma get_object props k : get (Obj props) k = Normal (prop props k).
Proof. reflexivity. Qed.

Lemma get_nullish v k : nullish v = true -> get v k = Throw (TypeError v k).
Proof. by destruct v. Qed.

(** *** The classifier *)

Lemma isValidJsonRpc_total body : exists b, isValidJsonRpc body = Normal b.
Proof.
  unfold isValidJsonRpc. destruct (truthy body) eqn:Ht; simpl; [|eauto].
  destruct (get_total body "jsonrpc" Ht) as [v ->].
  destruct (get_total body "method" Ht) as [m ->].
  destruct (get_total body "id" Ht) as [i ->].
  unfold mbind, Completion_bind.
  destruct (is_string "2.0" v); simpl; [|eauto].
  destruct (String.eqb (typeof m) "string"); simpl; [|eauto].
  destruct i; simpl; eauto.
Qed.

Lemma valid_truthy body : isValidJsonRpc body = Normal true -> truthy body = true.
Proof. unfold isValidJsonRpc. destruct (truthy body); simpl; [done | discriminate]. Qed.

Lemma is_string_spec s v : is_string s v = true <-> v = Str s.
Proof.
  destruct v; simpl; try (split; [discriminate|congruence]).
  rewrite String.eqb_eq. split; congruence.
Qed.

Lemma typeof_string v : String.eqb (typeof v) "string" = true <-> exists s, v = Str s.
Proof.
  destruct v; simpl; split; try discriminate; try (intros [? ?]; discriminate); eauto.
Qed.

(** On an object the classifier checks the three members and nothing else. *)
Lemma isValidJsonRpc_object props :
  isValidJsonRpc (Obj props)
  = Normal (is_string "2.0" (prop props "jsonrpc")
            && String.eqb (typeof (prop props "method")) "string"
            && negb (invalid_id (prop props "id"))).
Proof.
  unfold isValidJsonRpc. rewrite !get_object. simpl.
  unfold mbind, Completion_bind.
  destruct (is_string "2.0" _); simpl; [|done].
  destruct (String.eqb (typeof _) "string"); simpl; [|done].
  by destruct (prop props "id").
Qed.

Lemma fails_validation_spec props :
  fails_validation props <-> isValidJsonRpc (Obj props) = Normal false.
Proof.
  rewrite isValidJsonRpc_object. unfold fails_validation. split.
  - intros H. f_equal. apply not_true_is_false. intros Ht.
    apply andb_prop in Ht as [Ht Hi]. apply andb_prop in Ht as [Hv Hm].
    apply is_string_spec in Hv. apply typeof_string in Hm as [s Hm].
    destruct H as [H|[H|H]]; [done|by eapply H|by rewrite H in Hi].
  - intros [= H]. destruct (is_string "2.0" (prop props "jsonrpc")) eqn:Hv.
    + destruct (String.eqb (typeof (prop props "method")) "string") eqn:Hm.
      * right; right. simpl in H. by destruct (invalid_id _).
      * right; left. intros s Hs. rewrite Hs in Hm. discriminate.
    + left. intros Hs. rewrite Hs in Hv. discriminate.
Qed.

(** *** The tools and the dispatcher *)

Section Dispatch.

Variables (rt : Runtime) (env : Env) (u : string).

(** A tool always answers with a one-block tool result. *)
Lemma addToMCPMemory_returns thing w :
  exists t e w', addToMCPMemory rt env u thing w = (Normal (textResult t e), w')
    /\ extends w w'.
Proof.
  unfold addToMCPMemory, try_catch.
  step. unfold emit at 1.
  step. destruct (storeMemory env thing u) as [mid|e]; [|unfold mbind, M_bind, emit, mret, M_ret; eauto 10].
  step. unfold emit at 1.
  step. destruct (storeMemoryInD1 env thing u mid) as [[]|e]; [|unfold mbind, M_bind, emit, mret, M_ret; eauto 10].
  step. destruct (ToString rt thing) as [s|e]; unfold mbind, M_bind, emit, mret, M_ret, lift; eauto 10.
Qed.

Lemma searchMCPMemory_returns q w :
  exists t e w', searchMCPMemory rt env u q w = (Normal (textResult t e), w')
    /\ extends w w'.
Proof.
  unfold searchMCPMemory, try_catch.
  step. destruct (ToString rt q) as [s|e]; [|unfold mbind, M_bind, emit, mret, M_ret; eauto 10].
  step. unfold emit at 1.
  step. unfold emit at 1.
  step. destruct (searchMemories env q u) as [ms|e]; [|unfold mbind, M_bind, emit, mret, M_ret; eauto 10].
  step. unfold emit at 1.
  destruct (Nat.ltb 0 (length ms)); unfold mret, M_ret; eauto 10.
Qed.

Lemma handleToolCall_outcome body i w :
  get body "id" = Normal i ->
  exists c w', handleToolCall rt env u body w = (c, w') /\ well_formed i c /\ extends w w'.
Proof.
  intros Hi. unfold handleToolCall.
  step. destruct (get body "params") as [p|e]; [|by eexists _, _].
  step. destruct (get p "name") as [n|e]; [|by eexists _, _].
  step. destruct (get p "arguments") as [a|e]; [|by eexists _, _].
  destruct (is_string "addToMCPMemory" n).
  - step. destruct (get a "thingToRemember") as [x|e]; [|by eexists _, _].
    step. destruct (addToMCPMemory_returns x w) as (t & e & w' & -> & Hw).
    rewrite Hi. by eexists _, _.
  - destruct (is_string "searchMCPMemory" n).
    + step. destruct (get a "informationToGet") as [x|e]; [|by eexists _, _].
      step. destruct (searchMCPMemory_returns x w) as (t & e & w' & -> & Hw).
      rewrite Hi. by eexists _, _.
    + step. destruct (ToString rt n) as [s|e]; [|by eexists _, _].
      rewrite Hi. by eexists _, _.
Qed.

(** The dispatcher never throws on a body it can read members of: it
    returns a well-formed response and leaves its mark in the trace. *)
Lemma processJsonRpcRequest_returns body w :
  truthy body = true ->
  exists resp w' i, processJsonRpcRequest rt env u body w = (Normal resp, w')
     /\ get body "id" = Normal i
     /\ exactly_one resp = true /\ id resp = or_else i Null
     /\ error_code resp ≠ Some (-32600)
     /\ storage w' = storage w /\ dispatched w w'.
Proof.
  intros Ht.
  destruct (get_total body "id" Ht) as [i Hi].
  destruct (get_total body "method" Ht) as [m Hm].
  assert (forall w', extends (mkWorld (storage w) (trace w ++ [Invoked "processJsonRpcRequest"])) w' ->
            storage w' = storage w /\ dispatched w w') as Hd.
  { intros w' [Hs [more Hmore]]. split; [done|]. exists more.
    rewrite Hmore. simpl. by rewrite <- app_assoc. }
  unfold processJsonRpcRequest.
  step. unfold emit at 1. cbv beta iota.
  unfold try_catch at 1.
  step. rewrite Hm.
  destruct (is_string "tools/call" m).
  { destruct (handleToolCall_outcome body i
                (mkWorld (storage w) (trace w ++ [Invoked "processJsonRpcRequest"])) Hi)
      as ([resp|e] & w' & -> & H & Hw).
    - destruct H as (? & ? & ?). destruct (Hd w' Hw). by eexists _, _, _.
    - rewrite Hi. unfold mbind, M_bind, emit, lift, mret, M_ret.
      eexists _, _, _. split; [reflexivity|]. repeat (split; [done|]).
      apply Hd. eauto. }
  destruct (is_string "tools/list" m).
  { unfold handleToolsList. rewrite Hi. eexists _, _, _.
    split; [reflexivity|]. repeat (split; [done|]). apply Hd. eauto. }
  destruct (is_string "initialize" m).
  { unfold handleInitialize. rewrite Hi. eexists _, _, _.
    split; [reflexivity|]. repeat (split; [done|]). apply Hd. eauto. }
  rewrite Hi. eexists _, _, _.
  split; [reflexivity|]. repeat (split; [done|]). apply Hd. eauto.
Qed.

(** *** Tool calls, case by case *)

Lemma dispatch_tool_call_normal body resp w w' :
  get body "method" = Normal (Str "tools/call") ->
  handleToolCall rt env u body (entered w) = (Normal resp, w') ->
  processJsonRpcRequest rt env u body w = (Normal resp, w').
Proof.
  intros Hm Hc. unfold processJsonRpcRequest.
  step. unfold emit at 1. cbv beta iota. unfold try_catch at 1.
  step. rewrite Hm. cbn [is_string String.eqb]. simpl.
  fold (entered w). by rewrite Hc.
Qed.

Lemma dispatch_tool_call_throw body e i w w' :
  get body "method" = Normal (Str "tools/call") ->
  get body "id" = Normal i ->
  handleToolCall rt env u body (entered w) = (Throw e, w') ->
  exists w'', processJsonRpcRequest rt env u body w = (Normal (internal_error rt e i), w'').
Proof.
  intros Hm Hi Hc. unfold processJsonRpcRequest.
  step. unfold emit at 1. cbv beta iota. unfold try_catch at 1.
  step. rewrite Hm. simpl.
  fold (entered w). rewrite Hc. rewrite Hi. by eexists.
Qed.

Lemma addToMCPMemory_fails arg w :
  backend_fails env u AddToMCPMemory arg ->
  exists reason w',
    addToMCPMemory rt env u arg w
    = (Normal (textResult (failure_text AddToMCPMemory +:+ String_of_error rt reason)
                 (Some true)), w').
Proof.
  intros [[e He]|(mid & e & Hs & He)]; unfold addToMCPMemory, try_catch.
  - step. unfold emit at 1. step. rewrite He. by eexists _, _.
  - step. unfold emit at 1. step. rewrite Hs.
    step. unfold emit at 1. step. rewrite He. by eexists _, _.
Qed.

Lemma searchMCPMemory_fails arg w :
  backend_fails env u SearchMCPMemory arg ->
  exists reason w',
    searchMCPMemory rt env u arg w
    = (Normal (textResult (failure_text SearchMCPMemory +:+ String_of_error rt reason)
                 (Some true)), w').
Proof.
  intros [e He]; unfold searchMCPMemory, try_catch.
  step. destruct (ToString rt arg) as [shown|e']; [|by eexists _, _].
  step. unfold emit at 1. step. unfold emit at 1. step. rewrite He. by eexists _, _.
Qed.

Lemma handleToolCall_backend_fails body params args arg i t w :
  get body "params" = Normal params ->
  get params "name" = Normal (Str (tool_name t)) ->
  get params "arguments" = Normal args ->
  get args (tool_argument t) = Normal arg ->
  get body "id" = Normal i ->
  backend_fails env u t arg ->
  exists reason w',
    handleToolCall rt env u body w
    = (Normal (mkJsonRpcResponse "2.0"
                 (Some (OfTool (textResult (failure_text t +:+ String_of_error rt reason)
                                  (Some true))))
                 None (or_else i Null)), w').
Proof.
  intros Hp Hn Ha Hx Hi Hf. unfold handleToolCall.
  step. rewrite Hp. step. rewrite Hn. step. rewrite Ha.
  destruct t; simpl in *.
  - step. rewrite Hx. step.
    destruct (addToMCPMemory_fails arg w Hf) as (reason & w' & ->).
    rewrite Hi. by eexists _, _.
  - step. rewrite Hx. step.
    destruct (searchMCPMemory_fails arg w Hf) as (reason & w' & ->).
    rewrite Hi. by eexists _, _.
Qed.

Lemma handleToolCall_params_absent body params w :
  get body "params" = Normal params ->
  nullish params = true ->
  handleToolCall rt env u body w = (Throw (TypeError params "name"), w).
Proof.
  intros Hp Hn. unfold handleToolCall. step. rewrite Hp. step.
  by rewrite (get_nullish _ _ Hn).
Qed.

Lemma handleToolCall_unknown_tool body params name shown i w :
  get body "params" = Normal params ->
  nullish params = false ->
  get params "name" = Normal name ->
  (forall t, name ≠ Str (tool_name t)) ->
  ToString rt name = Normal shown ->
  get body "id" = Normal i ->
  handleToolCall rt env u body w
  = (Normal (mkJsonRpcResponse "2.0" None
               (Some (mkRpcError (-32601) ("Unknown tool: " +:+ shown) None))
               (or_else i Null)), w).
Proof.
  intros Hp Hnn Hn Hunknown Hs Hi. unfold handleToolCall.
  step. rewrite Hp. step. rewrite Hn.
  assert (exists a, get params "arguments" = Normal a) as [a Ha].
  { destruct params; try discriminate; simpl; eauto. }
  step. rewrite Ha.
  destruct (is_string "addToMCPMemory" name) eqn:H1.
  { apply is_string_spec in H1. by destruct (Hunknown AddToMCPMemory). }
  destruct (is_string "searchMCPMemory" name) eqn:H2.
  { apply is_string_spec in H2. by destruct (Hunknown SearchMCPMemory). }
  step. rewrite Hs. by rewrite Hi.
Qed.

Lemma handleToolCall_arguments_absent body params args t w :
  get body "params" = Normal params ->
  get params "name" = Normal (Str (tool_name t)) ->
  get params "arguments" = Normal args ->
  nullish args = true ->
  handleToolCall rt env u body w = (Throw (TypeError args (tool_argument t)), w).
Proof.
  intros Hp Hn Ha Hnull. unfold handleToolCall.
  step. rewrite Hp. step. rewrite Hn. step. rewrite Ha.
  destruct t; simpl; step; by rewrite (get_nullish _ _ Hnull).
Qed.

Lemma handleToolCall_unprintable_tool body params name e w :
  get body "params" = Normal params ->
  nullish params = false ->
  get params "name" = Normal name ->
  (forall t, name ≠ Str (tool_name t)) ->
  ToString rt name = Throw e ->
  handleToolCall rt env u body w = (Throw e, w).
Proof.
  intros Hp Hnn Hn Hunknown Hs. unfold handleToolCall.
  step. rewrite Hp. step. rewrite Hn.
  assert (exists a, get params "arguments" = Normal a) as [a Ha].
  { destruct params; try discriminate; simpl; eauto. }
  step. rewrite Ha.
  destruct (is_string "addToMCPMemory" name) eqn:H1.
  { apply is_string_spec in H1. by destruct (Hunknown AddToMCPMemory). }
  destruct (is_string "searchMCPMemory" name) eqn:H2.
  { apply is_string_spec in H2. by destruct (Hunknown SearchMCPMemory). }
  step. by rewrite Hs.
Qed.

(** *** The POST path *)

Lemma handlePost_valid request body sessionId w :
  json request = Some body ->
  isValidJsonRpc body = Normal true ->
  exists res w' i,
    processJsonRpcRequest rt env u body w = (Normal res, w')
    /\ handlePost rt env u request sessionId w = (Normal (createJsonResponse res sessionId), w')
    /\ get body "id" = Normal i
    /\ exactly_one res = true /\ id res = or_else i Null
    /\ error_code res ≠ Some (-32600)
    /\ storage w' = storage w /\ dispatched w w'.
Proof.
  intros Hj Hv.
  destruct (processJsonRpcRequest_returns body w (valid_truthy _ Hv))
    as (res & w' & i & Hp & Hi & H1 & H2 & H3 & H4 & H5).
  exists res, w', i. split; [done|]. split; [|done].
  unfold handlePost, try_catch.
  step. unfold request_json. rewrite Hj. unfold mret at 1, M_ret at 1.
  step. rewrite Hv. cbn [negb].
  step. rewrite Hp. unfold shouldUseSSE. rewrite andb_false_r.
  by destruct (includes _ "application/json").
Qed.

Lemma handlePost_invalid request body i sessionId w :
  json request = Some body ->
  isValidJsonRpc body = Normal false ->
  get body "id" = Normal i ->
  handlePost rt env u request sessionId w
  = (Normal (createErrorResponse (mkRpcError (-32600) "Invalid Request" None)
               (or_else i Null) sessionId), w).
Proof.
  intros Hj Hv Hi. unfold handlePost, try_catch.
  step. unfold request_json. rewrite Hj. unfold mret at 1, M_ret at 1.
  step. rewrite Hv. cbn [negb].
  step. by rewrite Hi.
Qed.

Lemma handlePost_null request sessionId w :
  json request = Some Null ->
  handlePost rt env u request sessionId w
  = (Normal (createErrorResponse (mkRpcError (-32700) "Parse error" None) Null sessionId),
     parse_error_logged w (TypeError Null "id")).
Proof.
  intros Hj. unfold handlePost, try_catch.
  step. unfold request_json. rewrite Hj. by unfold mret at 1, M_ret at 1.
Qed.

Lemma handlePost_unparseable request sessionId w :
  json request = None ->
  handlePost rt env u request sessionId w
  = (Normal (createErrorResponse (mkRpcError (-32700) "Parse error" None) Null sessionId),
     parse_error_logged w (Raised "SyntaxError")).
Proof.
  intros Hj. unfold handlePost, try_catch.
  step. unfold request_json. by rewrite Hj.
Qed.

(** A truthy identifier comes back as it was sent, on the rejected and on
    the dispatched path alike. *)
Lemma or_else_truthy i : truthy i = true -> or_else i Null = i.
Proof. unfold or_else. by intros ->. Qed.

Lemma handlePost_echoes_truthy_id request body i sessionId w :
  json request = Some body ->
  get body "id" = Normal i ->
  truthy i = true ->
  exists status res w',
    handlePost rt env u request sessionId w
    = (Normal (mkResponse status
                 (addCorsHeaders (<["Mcp-Session-Id" := sessionId]>
                                    (<["Content-Type" := "application/json"]> ∅)))
                 (Json (RpcDoc res))), w')
    /\ id res = i.
Proof.
  intros Hj Hi Ht. destruct (isValidJsonRpc_total body) as [[] Hv].
  - destruct (handlePost_valid request body sessionId w Hj Hv)
      as (res & w' & i' & _ & Hh & Hi' & _ & Hid & _).
    exists 202, res, w'. split; [done|].
    rewrite Hid. assert (i' = i) as -> by congruence. by apply or_else_truthy.
  - eexists 400, _, w. split; [by eapply handlePost_invalid|].
    by apply or_else_truthy.
Qed.

End Dispatch.

(** *** Session resolution *)

Section Sessions.

Variables (env : Env) (u : string).

Lemma lookupSession_spec request w :
  exists w1,
    lookupSession env request w
    = (Normal (if lookup_succeeds env request w then presented request else None), w1)
    /\ (lookup_succeeds env request w = false -> extends w w1).
Proof.
  unfold lookupSession, lookup_succeeds, presented, reachable.
  destruct (rq_headers request !! "Mcp-Session-Id") as [h|]; [|by eexists].
  destruct (String.eqb h "") eqn:Hh; cbn [negb andb]; [by eexists|].
  unfold try_catch. step. unfold session_manager_fetch, get_request.
  destruct (session_manager_fault env _) as [e|]; cbn [andb].
  { eexists. split; [reflexivity|]. intros _. apply extends_emit. }
  cbn -[bool_decide]. unfold SessionManager.getSession. cbn -[bool_decide].
  destruct (storage w !! h) as [s|] eqn:Hs.
  - rewrite bool_decide_eq_true_2 by eauto. eexists. split; [reflexivity|]. discriminate.
  - rewrite bool_decide_eq_false_2 by (by intros [? ?]).
    eexists. split; [reflexivity|]. intros _. split; [done|]. exists []. simpl. by rewrite app_nil_r.
Qed.

Lemma register_spec sessionId w :
  exists w',
    try_catch
      (session_manager_fetch env (create_request sessionId u);; mret tt)
      (fun e =>
         emit (Console "warn" "Failed to create session in Durable Object:" (Some e));;
         mret tt) w
    = (Normal tt, w')
    /\ storage w' = if reachable env (create_request sessionId u)
                    then <[sessionId := new_session env sessionId u]> (storage w)
                    else storage w.
Proof.
  unfold try_catch, reachable. step. unfold session_manager_fetch.
  destruct (session_manager_fault env _) as [e|]; by eexists.
Qed.

End Sessions.

(** *** Headers *)

Lemma addCorsHeaders_keeps h k v :
  h !! k = Some v ->
  k ≠ "Access-Control-Allow-Origin" -> k ≠ "Access-Control-Allow-Methods" ->
  k ≠ "Access-Control-Allow-Headers" -> k ≠ "Access-Control-Expose-Headers" ->
  addCorsHeaders h !! k = Some v.
Proof. intros. unfold addCorsHeaders. by rewrite !lookup_insert_ne. Qed.

Lemma createJsonResponse_session res sessionId :
  headers (createJsonResponse res sessionId) !! "Mcp-Session-Id" = Some sessionId.
Proof. simpl. apply addCorsHeaders_keeps; [|done..]. apply lookup_insert_eq. Qed.

Lemma createJsonResponse_content_type res sessionId :
  headers (createJsonResponse res sessionId) !! "Content-Type" = Some "application/json".
Proof.
  simpl. apply addCorsHeaders_keeps; [|done..].
  rewrite lookup_insert_ne by done. apply lookup_insert_eq.
Qed.

Lemma createErrorResponse_session err i sessionId :
  headers (createErrorResponse err i sessionId) !! "Mcp-Session-Id" = Some sessionId.
Proof. simpl. apply addCorsHeaders_keeps; [|done..]. apply lookup_insert_eq. Qed.

End Transport.

(** ** The model at work *)

Module Examples.

Import Js StreamableHttp Samples.

Example includes_examples :
  includes "application/json, text/event-stream" "text/event-stream" = true
  /\ includes "" "application/json" = false
  /\ includes "text/html" "application/json" = false
  /\ includes "abc" "" = true.
Proof. repeat split. Qed.

Example to_string_examples :
  to_string (Arr [Num 1; Null; Str "a"; Arr [Bool true; Num (-2)]]) = Normal "1,,a,true,-2"
  /\ to_string (Obj [("a", Num 1)]) = Normal "[object Object]"
  /\ to_string Undefined = Normal "undefined".
Proof. repeat split. Qed.

Example options_example :
  handleRequest runtime env_up "alice" (mkRequest "OPTIONS" [] ∅ None) world0
  = (Normal createCorsResponse, world0).
Proof. reflexivity. Qed.

(** A first contact: no identifier is presented, one is minted and
    registered, and the probe is answered under it. *)
Example first_contact_example :
  handleRequest runtime env_up "alice" (mkRequest "GET" ["capabilities"] ∅ None) world0
  = (Normal (createCapabilitiesResponse minted),
     mkWorld {[minted := new_session env_up minted "alice"]} []).
Proof. by vm_compute. Qed.

Example search_example :
  exists w',
    processJsonRpcRequest runtime env_up "alice"
      (envelope "tools/call"
         [("params", Obj [("name", Str "searchMCPMemory");
                          ("arguments", Obj [("informationToGet", Str "tea")])]);
          ("id", Num 7)])
      world0
    = (Normal (mkJsonRpcResponse "2.0"
                 (Some (OfTool (textResult
                                  ("Found memories:" +:+ newline
                                   +:+ "likes tea (score: 1.0000)") None)))
                 None (Num 7)),
       w').
Proof. by eexists. Qed.

End Examples.

(** ** The claims about the transport *)

Module TransportClaims.

Import Js StreamableHttp Samples Transport.

(** C1. For every valid JSON-RPC envelope whose method is one of
    [initialize], [tools/list] and [tools/call], the response that
    [processJsonRpcRequest] produces has exactly one of [result] and [error]
    populated: never both, never neither. *)
Theorem C1_exactly_one_of_result_and_error
    (rt : Runtime) (env : Env) (userId : string) (body : value) (w : World) :
  isValidJsonRpc body = Normal true ->
  (exists m, get body "method" = Normal (Str m)
             /\ m ∈ ["initialize"; "tools/list"; "tools/call"]) ->
  exists resp w',
    processJsonRpcRequest rt env userId body w = (Normal resp, w')
    /\ ((is_Some (result resp) /\ error resp = None)
        \/ (result resp = None /\ is_Some (error resp))).
Proof.
  intros Hv _.
  destruct (processJsonRpcRequest_returns rt env userId body w (valid_truthy _ Hv))
    as (resp & w' & i & Hp & _ & Hone & _).
  exists resp, w'. split; [done|].
  unfold exactly_one in Hone.
  destruct (result resp), (error resp); try discriminate; eauto.
Qed.

Lemma C1_witness :
  exists resp w',
    processJsonRpcRequest runtime env_up "alice"
      (envelope "tools/call"
         [("params", Obj [("name", Str "addToMCPMemory");
                          ("arguments", Obj [("thingToRemember", Str "likes tea")])]);
          ("id", Num 7)])
      world0 = (Normal resp, w')
    /\ ((is_Some (result resp) /\ error resp = None)
        \/ (result resp = None /\ is_Some (error resp))).
Proof.
  apply C1_exactly_one_of_result_and_error; [reflexivity|].
  exists "tools/call". split; [reflexivity|]. set_solver.
Defined.

(** C2. For every [tools/call] of a known tool whose backend operation
    fails, the RPC response is a success envelope: its [result] is a tool
    result with [isError = true] and one text block that explains the
    failure, and it carries no [error]. *)
Theorem C2_tool_failure_is_a_result
    (rt : Runtime) (env : Env) (userId : string)
    (body params args arg : value) (t : Tool) (w : World) :
  get body "method" = Normal (Str "tools/call") ->
  get body "params" = Normal params ->
  get params "name" = Normal (Str (tool_name t)) ->
  get params "arguments" = Normal args ->
  get args (tool_argument t) = Normal arg ->
  backend_fails env userId t arg ->
  exists resp w' reason,
    processJsonRpcRequest rt env userId body w = (Normal resp, w')
    /\ result resp
       = Some (OfTool (mkToolResult
                         [mkTextContent "text" (failure_text t +:+ String_of_error rt reason)]
                         (Some true)))
    /\ error resp = None.
Proof.
  intros Hm Hp Hn Ha Hx Hf.
  assert (exists i, get body "id" = Normal i) as [i Hi].
  { destruct body; try discriminate; simpl; eauto. }
  destruct (handleToolCall_backend_fails rt env userId body params args arg i t
              (entered w) Hp Hn Ha Hx Hi Hf) as (reason & w' & Hc).
  eexists _, w', reason. split; [by apply dispatch_tool_call_normal|done].
Qed.

Lemma C2_witness :
  exists resp w' reason,
    processJsonRpcRequest runtime env_down "alice"
      (envelope "tools/call"
         [("params", Obj [("name", Str "searchMCPMemory");
                          ("arguments", Obj [("informationToGet", Str "tea")])]);
          ("id", Str "3")])
      world0 = (Normal resp, w')
    /\ result resp
       = Some (OfTool (mkToolResult
                         [mkTextContent "text"
                            ("Failed to search memories: " +:+ error_text reason)]
                         (Some true)))
    /\ error resp = None.
Proof.
  apply (C2_tool_failure_is_a_result runtime env_down "alice" _
           (Obj [("name", Str "searchMCPMemory");
                 ("arguments", Obj [("informationToGet", Str "tea")])])
           (Obj [("informationToGet", Str "tea")]) (Str "tea") SearchMCPMemory);
    try reflexivity.
  simpl. eauto.
Defined.

(** C3. For every POST body that parses as a JSON object but fails envelope
    validation (the [jsonrpc] tag is not ["2.0"], [method] is not a string,
    or [id] is present and is not a string, a number or [null]), the
    response is the Invalid Request error (code -32600) at HTTP status 400,
    and the dispatcher is not invoked: the run leaves the world as it found
    it. *)
Theorem C3_invalid_envelope_is_rejected
    (rt : Runtime) (env : Env) (userId : string)
    (request : Request) (sessionId : string) (props : list (string * value)) (w : World) :
  json request = Some (Obj props) ->
  fails_validation props ->
  exists resp,
    handlePost rt env userId request sessionId w = (Normal resp, w)
    /\ status resp = 400
    /\ body resp = Json (RpcDoc (error_envelope invalid_request
                                   (or_else (prop props "id") Null)))
    /\ ¬ dispatched w w.
Proof.
  intros Hj Hf. apply fails_validation_spec in Hf.
  eexists. split; [by eapply handlePost_invalid|].
  split; [done|]. split; [done|].
  intros [more Hmore].
  apply (f_equal length) in Hmore. rewrite length_app in Hmore. simpl in Hmore. lia.
Qed.

Lemma C3_witness :
  exists resp,
    handlePost runtime env_up "alice"
      (post ∅ (Some (Obj [("jsonrpc", Str "1.0"); ("method", Str "initialize");
                          ("id", Num 1)])))
      "s1" world0 = (Normal resp, world0)
    /\ status resp = 400
    /\ body resp = Json (RpcDoc (error_envelope invalid_request (Num 1)))
    /\ ¬ dispatched world0 world0.
Proof.
  apply (C3_invalid_envelope_is_rejected runtime env_up "alice" _ "s1"
           [("jsonrpc", Str "1.0"); ("method", Str "initialize"); ("id", Num 1)]);
    [reflexivity|].
  left. discriminate.
Defined.

(** C4. For every POST whose body passes envelope validation, the response
    is a single JSON document with HTTP status 202 and the [Mcp-Session-Id]
    header, whatever the request's headers are, [Accept] included: the
    document is the envelope the dispatcher returned. *)
Theorem C4_valid_post_is_answered_in_json
    (rt : Runtime) (env : Env) (userId : string)
    (request : Request) (sessionId : string) (body : value) (w : World) :
  json request = Some body ->
  isValidJsonRpc body = Normal true ->
  exists resp res w',
    handlePost rt env userId request sessionId w = (Normal resp, w')
    /\ processJsonRpcRequest rt env userId body w = (Normal res, w')
    /\ status resp = 202
    /\ StreamableHttp.body resp = Json (RpcDoc res)
    /\ headers resp !! "Mcp-Session-Id" = Some sessionId
    /\ headers resp !! "Content-Type" = Some "application/json"
    /\ dispatched w w'.
Proof.
  intros Hj Hv.
  destruct (handlePost_valid rt env userId request body sessionId w Hj Hv)
    as (res & w' & i & Hp & Hh & _ & _ & _ & _ & _ & Hd).
  exists (createJsonResponse res sessionId), res, w'.
  split; [done|]. split; [done|]. split; [done|]. split; [done|].
  split; [apply createJsonResponse_session|].
  split; [apply createJsonResponse_content_type|done].
Qed.

Lemma C4_witness :
  exists resp res w',
    handlePost runtime env_up "alice"
      (post {["Accept" := "text/event-stream"]}
            (Some (envelope "initialize" [("params", Obj []); ("id", Str "1")])))
      "s1" world0 = (Normal resp, w')
    /\ processJsonRpcRequest runtime env_up "alice"
         (envelope "initialize" [("params", Obj []); ("id", Str "1")]) world0
       = (Normal res, w')
    /\ status resp = 202
    /\ body resp = Json (RpcDoc res)
    /\ headers resp !! "Mcp-Session-Id" = Some "s1"
    /\ headers resp !! "Content-Type" = Some "application/json"
    /\ dispatched world0 w'.
Proof.
  apply C4_valid_post_is_answered_in_json; reflexivity.
Defined.



(** C6, at the request [{"jsonrpc":"2.0","method":"resources/list","id":0}]
    and at [{"jsonrpc":"1.0","method":"initialize","id":0}]: the first is
    answered with Method not found and the second with Invalid Request, and
    in both envelopes the identifier is [null], not the [0] that was sent. *)
Theorem C6_id_zero_comes_back_null
    (rt : Runtime) (env : Env) (userId : string)
    (hs : gmap string string) (sessionId : string) (w : World) :
  (exists w',
     handlePost rt env userId
       (post hs (Some (envelope "resources/list" [("id", Num 0)]))) sessionId w
     = (Normal (createJsonResponse (error_envelope method_not_found Null) sessionId), w'))
  /\ handlePost rt env userId
       (post hs (Some (Obj [("jsonrpc", Str "1.0"); ("method", Str "initialize");
                            ("id", Num 0)]))) sessionId w
     = (Normal (createErrorResponse invalid_request Null sessionId), w).
Proof.
  split.
  - unfold handlePost, try_catch.
    step. unfold request_json. cbn [json post]. unfold mret at 1, M_ret at 1.
    step. cbn [isValidJsonRpc]. simpl.
    destruct (includes _ "text/event-stream"), (includes _ "application/json");
      by eexists.
  - exact (handlePost_invalid rt env userId
             (post hs (Some (Obj [("jsonrpc", Str "1.0"); ("method", Str "initialize");
                                  ("id", Num 0)])))
             _ (Num 0) sessionId w eq_refl eq_refl eq_refl).
Qed.

(** C7, as stated, fails at [{"jsonrpc":"2.0","method":"tools/call","id":"7"}],
    a valid envelope whose [params] is absent: the answer is Internal error
    (-32603), not Invalid Request (-32600). *)
Lemma C7_counterexample_params_absent :
  isValidJsonRpc (envelope "tools/call" [("id", Str "7")]) = Normal true
  /\ exists resp w',
       processJsonRpcRequest runtime env_up "alice"
         (envelope "tools/call" [("id", Str "7")]) world0 = (Normal resp, w')
       /\ error_code resp = Some (-32603)
       /\ message <$> error resp = Some "Internal error"
       /\ id resp = Str "7"
       /\ error_code resp ≠ Some (-32600).
Proof. split; [reflexivity|]. eexists _, _. split; [reflexivity|]. by repeat split. Qed.

(** C7, amended.  A [tools/call] request whose [params] does not have the
    expected shape is never answered with Invalid Request.  When [params]
    is absent or [null] the answer is Internal error (-32603), with the
    thrown error as [data].  When [params] names no known tool, the answer
    is the tool-scoped Method not found error (-32601, "Unknown tool: ...")
    if the name can be rendered as a string, and Internal error (-32603)
    with the thrown error as [data] if rendering it throws.  When [params]
    names a known tool whose [arguments] is absent or [null], the answer is
    again Internal error. *)
Theorem C7_params_mismatch_is_not_invalid_request
    (rt : Runtime) (env : Env) (userId : string) (body params i : value) (w : World) :
  get body "method" = Normal (Str "tools/call") ->
  get body "params" = Normal params ->
  get body "id" = Normal i ->
  (forall resp w',
      processJsonRpcRequest rt env userId body w = (Normal resp, w') ->
      error_code resp ≠ Some (-32600))
  /\ (nullish params = true ->
      exists w',
        processJsonRpcRequest rt env userId body w
        = (Normal (internal_error rt (TypeError params "name") i), w'))
  /\ (forall name,
        nullish params = false ->
        get params "name" = Normal name ->
        (forall t, name ≠ Str (tool_name t)) ->
        exists w',
          processJsonRpcRequest rt env userId body w
          = (Normal (match ToString rt name with
                     | Normal shown => error_envelope (unknown_tool shown) (or_else i Null)
                     | Throw e => internal_error rt e i
                     end), w'))
  /\ (forall t args,
        get params "name" = Normal (Str (tool_name t)) ->
        get params "arguments" = Normal args ->
        nullish args = true ->
        exists w',
          processJsonRpcRequest rt env userId body w
          = (Normal (internal_error rt (TypeError args (tool_argument t)) i), w')).
Proof.
  intros Hm Hp Hi. split; [|split; [|split]].
  - intros resp w' Hrun.
    assert (truthy body = true) as Ht by (by destruct body).
    destruct (processJsonRpcRequest_returns rt env userId body w Ht)
      as (resp' & w'' & i' & Hrun' & _ & _ & _ & Hcode & _).
    congruence.
  - intros Hnull. eapply dispatch_tool_call_throw; [done..|].
    by apply handleToolCall_params_absent.
  - intros name Hnn Hn Hunknown. destruct (ToString rt name) as [shown|e] eqn:Hs.
    + eexists. apply dispatch_tool_call_normal; [done|].
      by eapply handleToolCall_unknown_tool.
    + eapply dispatch_tool_call_throw; [done..|].
      by eapply handleToolCall_unprintable_tool.
  - intros t args Hn Ha Hnull. eapply dispatch_tool_call_throw; [done..|].
    by eapply handleToolCall_arguments_absent.
Qed.

Lemma C7_witness :
  (forall resp w',
      processJsonRpcRequest runtime env_up "alice"
        (envelope "tools/call"
           [("params", Obj [("name", Obj [("toString", Num 1)])]); ("id", Str "7")])
        world0 = (Normal resp, w') ->
      error_code resp ≠ Some (-32600))
  /\ exists w',
       processJsonRpcRequest runtime env_up "alice"
         (envelope "tools/call"
            [("params", Obj [("name", Obj [("toString", Num 1)])]); ("id", Str "7")])
         world0
       = (Normal (internal_error runtime
                    (Raised "TypeError: Cannot convert object to primitive value")
                    (Str "7")), w').
Proof.
  destruct (C7_params_mismatch_is_not_invalid_request runtime env_up "alice"
              (envelope "tools/call"
                 [("params", Obj [("name", Obj [("toString", Num 1)])]); ("id", Str "7")])
              (Obj [("name", Obj [("toString", Num 1)])]) (Str "7") world0
              eq_refl eq_refl eq_refl) as (Hnever & _ & Hunknown & _).
  split; [exact Hnever|].
  apply (Hunknown (Obj [("toString", Num 1)])); try reflexivity.
  intros t. discriminate.
Defined.

(** C10, as stated, fails at the body [false]: reading [id] of a boolean
    does not throw, and the answer is Invalid Request, not Parse error. *)
Lemma C10_counterexample_false :
  handlePost runtime env_up "alice" (post ∅ (Some (Bool false))) "s1" world0
  = (Normal (createErrorResponse invalid_request Null "s1"), world0)
  /\ createErrorResponse invalid_request Null "s1"
     ≠ createErrorResponse parse_error Null "s1".
Proof. split; [reflexivity|]. intros H. discriminate (f_equal body H). Qed.

(** C10, amended.  For a POST whose body is JSON text but not an object: the
    body [null] is answered with the Parse error envelope (-32700, id
    [null], HTTP 400), because reading [id] of [null] throws inside the
    [try] that also handles parse failures; a boolean, a number, a string
    or an array is answered with the Invalid Request envelope (-32600, id
    [null], HTTP 400).  In neither case is the dispatcher invoked. *)
Theorem C10_non_object_bodies
    (rt : Runtime) (env : Env) (userId : string)
    (request : Request) (sessionId : string) (body : value) (w : World) :
  json request = Some body ->
  non_object body = true ->
  exists w',
    handlePost rt env userId request sessionId w
    = (Normal (createErrorResponse
                 (if body is Null then parse_error else invalid_request)
                 Null sessionId), w')
    /\ status (createErrorResponse
                 (if body is Null then parse_error else invalid_request)
                 Null sessionId) = 400
    /\ ¬ dispatched w w'.
Proof.
  intros Hj Hn.
  assert (forall e, ¬ dispatched w (parse_error_logged w e)) as Hlogged.
  { intros e [more Hmore]. simpl in Hmore. apply app_inv_head in Hmore. discriminate. }
  assert (¬ dispatched w w) as Hsame.
  { intros [more Hmore]. apply (f_equal length) in Hmore.
    rewrite length_app in Hmore. simpl in Hmore. lia. }
  destruct body as [| |b|n|s|l|props]; try discriminate.
  - eexists. split; [by apply handlePost_null|]. split; [done|]. apply Hlogged.
  - exists w. split; [|by split].
    refine (handlePost_invalid rt env userId request _ Undefined sessionId w Hj _ eq_refl).
    by destruct b.
  - exists w. split; [|by split].
    refine (handlePost_invalid rt env userId request _ Undefined sessionId w Hj _ eq_refl).
    unfold isValidJsonRpc. by destruct (truthy (Num n)).
  - exists w. split; [|by split].
    refine (handlePost_invalid rt env userId request _ Undefined sessionId w Hj _ eq_refl).
    unfold isValidJsonRpc. by destruct (truthy (Str s)).
  - exists w. split; [|by split].
    exact (handlePost_invalid rt env userId request _ Undefined sessionId w Hj
             eq_refl eq_refl).
Qed.

Lemma C10_witness :
  exists w',
    handlePost runtime env_up "alice" (post ∅ (Some Null)) "s1" world0
    = (Normal (createErrorResponse parse_error Null "s1"), w')
    /\ status (createErrorResponse parse_error Null "s1") = 400
    /\ ¬ dispatched world0 w'.
Proof.
  apply (C10_non_object_bodies runtime env_up "alice" (post ∅ (Some Null)) "s1" Null world0);
    reflexivity.
Defined.

(** *** The examples of the specification *)

Example initialize_example :
  exists w',
    handlePost runtime env_up "alice"
      (post {["Accept" := "application/json"]}
            (Some (envelope "initialize" [("params", Obj []); ("id", Str "1")])))
      "s1" world0
    = (Normal (createJsonResponse
                 (mkJsonRpcResponse "2.0" (Some (OfValue capabilities)) None (Str "1"))
                 "s1"), w').
Proof. by eexists. Qed.

Example bogus_tool_example :
  exists w',
    processJsonRpcRequest runtime env_up "alice"
      (envelope "tools/call"
         [("params", Obj [("name", Str "bogusTool"); ("arguments", Obj [])]);
          ("id", Str "3")])
      world0
    = (Normal (error_envelope (unknown_tool "bogusTool") (Str "3")), w').
Proof. by eexists. Qed.

Example malformed_body_example :
  exists w',
    handlePost runtime env_up "alice" (post ∅ None) "s1" world0
    = (Normal (createErrorResponse parse_error Null "s1"), w').
Proof. by eexists. Qed.

Example remember_example :
  exists w',
    processJsonRpcRequest runtime env_up "alice"
      (envelope "tools/call"
         [("params", Obj [("name", Str "addToMCPMemory");
                          ("arguments", Obj [("thingToRemember", Str "likes tea")])]);
          ("id", Num 7)])
      world0
    = (Normal (mkJsonRpcResponse "2.0"
                 (Some (OfTool (textResult "Remembered: likes tea" None))) None (Num 7)),
       w').
Proof. by eexists. Qed.

End TransportClaims.

(** ** The claims about the session store *)

Module SessionClaims.

Import Js SessionManager Samples SessionStore.

(** C8, as stated, fails when the session is read in the millisecond it was
    created in: the last activity the read records is the one recorded at
    creation, not a strictly greater one. *)
Lemma C8_counterexample_same_millisecond :
  exists created read,
    createSession 1000 (mkPayload "s1" "alice" None) ∅
    = (mkResponse 200 (SessionJson created), {["s1" := created]})
    /\ getSession 1000 (mkPayload "s1" "" None) {["s1" := created]}
       = (mkResponse 200 (SessionJson read), {["s1" := read]})
    /\ ¬ (lastActivity created < lastActivity read).
Proof.
  exists (mkSessionData "s1" "alice" 1000 1000 ∅), (mkSessionData "s1" "alice" 1000 1000 ∅).
  split; [reflexivity|]. split; [reflexivity|]. simpl. lia.
Qed.

(** C8, amended.  For every stored session, a successful update or get
    leaves the session's [id], [userId] and [createdAt] unchanged; an update
    keeps every metadata key its patch does not name and gives the keys it
    names the patch's values (a shallow merge), and a get leaves the
    metadata alone.  Both set [lastActivity] to the clock reading of the
    operation, which is strictly greater than the recorded one exactly when
    the clock has advanced past it. *)
Theorem C8_refresh_keeps_identity
    (now : Z) (p : Payload) (st : Storage) (s : SessionData) :
  st !! p_sessionId p = Some s ->
  exists su sg,
    updateSession now p st = (mkResponse 200 (SessionJson su), <[p_sessionId p := su]> st)
    /\ getSession now p st = (mkResponse 200 (SessionJson sg), <[p_sessionId p := sg]> st)
    /\ same_identity s su /\ same_identity s sg
    /\ metadata sg = metadata s
    /\ (forall k, (forall patch, p_metadata p = Some patch -> patch !! k = None) ->
                  metadata su !! k = metadata s !! k)
    /\ (forall patch k v, p_metadata p = Some patch -> patch !! k = Some v ->
                  metadata su !! k = Some v)
    /\ lastActivity su = now /\ lastActivity sg = now
    /\ (lastActivity s < lastActivity su <-> lastActivity s < now)
    /\ (lastActivity s < lastActivity sg <-> lastActivity s < now).
Proof.
  intros Hs. unfold updateSession, getSession. rewrite Hs.
  eexists _, _. split; [reflexivity|]. split; [reflexivity|]. simpl.
  repeat split; try done.
  - intros k Hk. destruct (p_metadata p) as [patch|]; [|done].
    unfold spread. apply lookup_union_r. by apply Hk.
  - intros patch k v -> Hk. unfold spread. by apply lookup_union_Some_l.
Qed.

Lemma C8_witness :
  exists su sg,
    updateSession 86400500 (mkPayload "s2" "" (Some {["tab" := Num 3]})) {["s2" := recent]}
    = (mkResponse 200 (SessionJson su), <["s2" := su]> {["s2" := recent]})
    /\ getSession 86400500 (mkPayload "s2" "" (Some {["tab" := Num 3]})) {["s2" := recent]}
       = (mkResponse 200 (SessionJson sg), <["s2" := sg]> {["s2" := recent]})
    /\ same_identity recent su /\ same_identity recent sg
    /\ metadata sg = metadata recent
    /\ metadata su !! "client" = Some (Str "cursor")
    /\ metadata su !! "tab" = Some (Num 3)
    /\ lastActivity su = 86400500 /\ lastActivity sg = 86400500
    /\ lastActivity recent < lastActivity su.
Proof.
  destruct (C8_refresh_keeps_identity 86400500
              (mkPayload "s2" "" (Some {["tab" := Num 3]})) {["s2" := recent]} recent
              (lookup_singleton_eq "s2" recent))
    as (su & sg & Hu & Hg & Hiu & Hig & Hmg & Hkeep & Hpatch & Hlu & Hlg & Hsu & Hsg).
  exists su, sg. repeat (split; [assumption|]).
  split; [|split; [|split; [|split]]]; try assumption.
  - rewrite (Hkeep "client"); [reflexivity|].
    intros patch [= <-]. reflexivity.
  - apply (Hpatch {["tab" := Num 3]}); reflexivity.
  - apply Hsu. reflexivity.
Defined.

(** C9, as stated, fails when a session crosses the 24-hour mark between
    the two runs: the first run, at 24 hours sharp, removes nothing, and the
    second, a millisecond later, removes the session. *)
Lemma C9_counterexample_clock_advances :
  cleanupSessions 86400000 {["s1" := stale]}
    = (mkResponse 200 (CleanupJson 0 1), {["s1" := stale]})
  /\ cleanupSessions 86400001 {["s1" := stale]}
    = (mkResponse 200 (CleanupJson 1 0), ∅).
Proof. split; by vm_compute. Qed.

(** C9, amended.  For every session-store state, a sweep removes exactly
    the sessions whose last-activity age exceeds 24 hours and reports how
    many it removed and how many remain; a second sweep with no session
    activity in between is a no-op (it removes no session and reports the
    same remaining count) provided none of the remaining sessions has come
    to exceed 24 hours by the time it runs, as when both runs read the same
    clock. *)
Theorem C9_sweep_then_quiet (now1 now2 : Z) (st : Storage) :
  (forall k s, kept now1 st !! k = Some s -> ¬ expired now2 s) ->
  cleanupSessions now1 st
    = (mkResponse 200 (CleanupJson (size (swept now1 st)) (size (kept now1 st))),
       kept now1 st)
  /\ (forall k, kept now1 st !! k
                = s ← st !! k; if decide (now1 - lastActivity s > 86400000) then None else Some s)
  /\ cleanupSessions now2 (kept now1 st)
    = (mkResponse 200 (CleanupJson 0 (size (kept now1 st))), kept now1 st).
Proof.
  intros Hquiet. unfold cleanupSessions.
  destruct (sweep_counts now1 st) as [-> ->]. rewrite sweep_storage. split; [done|].
  split.
  { intros k. unfold kept. rewrite map_lookup_filter.
    destruct (st !! k) as [s|]; simpl; [|done].
    change (now1 - lastActivity s > 86400000) with (expired now1 s).
    destruct (decide (expired now1 s)).
    - rewrite option_guard_False; [done|]. simpl. tauto.
    - by rewrite option_guard_True. }
  destruct (sweep_counts now2 (kept now1 st)) as [-> ->]. rewrite sweep_storage.
  destruct (nothing_to_sweep now2 (kept now1 st) Hquiet) as [-> ->].
  by rewrite map_size_empty.
Qed.

Lemma C9_witness :
  cleanupSessions 86400001 {["s1" := stale; "s2" := recent]}
    = (mkResponse 200
         (CleanupJson (size (swept 86400001 {["s1" := stale; "s2" := recent]}))
                      (size (kept 86400001 {["s1" := stale; "s2" := recent]}))),
       kept 86400001 {["s1" := stale; "s2" := recent]})
  /\ (forall k, kept 86400001 {["s1" := stale; "s2" := recent]} !! k
                = s ← ({["s1" := stale; "s2" := recent]} : Storage) !! k;
                  if decide (86400001 - lastActivity s > 86400000) then None else Some s)
  /\ cleanupSessions 86400002 (kept 86400001 {["s1" := stale; "s2" := recent]})
    = (mkResponse 200
         (CleanupJson 0 (size (kept 86400001 {["s1" := stale; "s2" := recent]}))),
       kept 86400001 {["s1" := stale; "s2" := recent]}).
Proof.
  apply (C9_sweep_then_quiet 86400001 86400002 {["s1" := stale; "s2" := recent]}).
  intros k s [Hk Hs]%kept_lookup.
  apply lookup_insert_Some in Hk as [[_ <-]|[_ Hk]]; [by destruct Hs; vm_compute|].
  apply lookup_singleton_Some in Hk as [_ <-]. unfold expired. simpl. unfold maxAge. lia.
Defined.

(** The second run of the sweep at the same clock reading, spelled out. *)
Lemma sweep_idempotent_at_fixed_clock now st :
  cleanupSessions now (kept now st)
  = (mkResponse 200 (CleanupJson 0 (size (kept now st))), kept now st).
Proof.
  unfold cleanupSessions.
  destruct (sweep_counts now (kept now st)) as [-> ->]. rewrite sweep_storage.
  destruct (nothing_to_sweep now (kept now st)) as [-> ->]; [|by rewrite map_size_empty].
  intros k s. by apply kept_stays_fresh.
Qed.

End SessionClaims.

(** ** Further properties of the session store *)

Module StoreFacts.

Import Js SessionManager Samples SessionStore Observations.

Lemma size_kept_swept now (st : Storage) :
  (size (swept now st) + size (kept now st))%nat = size st.
Proof.
  unfold swept, kept. rewrite <- map_size_disj_union.
  - f_equal. apply map_filter_union_complement.
  - apply map_disjoint_filter_complement.
Qed.

Lemma cleanupSessions_spec now st :
  cleanupSessions now st
  = (mkResponse 200 (CleanupJson (size (swept now st)) (size (kept now st))), kept now st).
Proof.
  unfold cleanupSessions. destruct (sweep_counts now st) as [-> ->].
  by rewrite sweep_storage.
Qed.

Lemma kept_kept now1 now2 (st : Storage) :
  now1 <= now2 -> kept now2 (kept now1 st) = kept now2 st.
Proof.
  intros Hle. unfold kept. rewrite map_filter_filter. apply map_filter_ext.
  intros k s _. simpl. unfold expired. split; [tauto|]. intros H. split; [done|lia].
Qed.

(** A read after a creation returns the created record, whatever the store
    held under the identifier before. *)
Theorem create_then_get (now1 now2 : Z) (p p' : Payload) (st : Storage) :
  p_sessionId p' = p_sessionId p ->
  let created :=
    mkSessionData (p_sessionId p) (p_userId p) now1 now2 (default ∅ (p_metadata p)) in
  getSession now2 p' (createSession now1 p st).2
  = (mkResponse 200 (SessionJson created), <[p_sessionId p := created]> st).
Proof.
  intros Hid. unfold getSession, createSession. simpl. rewrite Hid.
  rewrite lookup_insert_eq. simpl. by rewrite insert_insert_eq.
Qed.

Lemma create_then_get_witness :
  getSession 2000 (mkPayload "s2" "" None)
    (createSession 1000 (mkPayload "s2" "bob" None) {["s2" := recent]}).2
  = (mkResponse 200 (SessionJson (mkSessionData "s2" "bob" 1000 2000 ∅)),
     <["s2" := mkSessionData "s2" "bob" 1000 2000 ∅]> {["s2" := recent]}).
Proof.
  apply (create_then_get 1000 2000 (mkPayload "s2" "bob" None) (mkPayload "s2" "" None)).
  reflexivity.
Defined.

(** On an identifier the store does not hold, update, get and delete
    answer 404 and change nothing. *)
Theorem missing_session_is_404 (now : Z) (p : Payload) (st : Storage) :
  st !! p_sessionId p = None ->
  fetch now (mkRequest "POST" "/update" p) st
    = (mkResponse 404 (Text "Session not found"), st)
  /\ fetch now (mkRequest "POST" "/get" p) st
    = (mkResponse 404 (Text "Session not found"), st)
  /\ fetch now (mkRequest "DELETE" "/delete" p) st
    = (mkResponse 404 (Text "Session not found"), st)
  /\ ok (mkResponse 404 (Text "Session not found")) = false.
Proof.
  intros H. unfold fetch. simpl.
  unfold updateSession, getSession, deleteSession. by rewrite H.
Qed.

Lemma missing_session_is_404_witness :
  fetch 1000 (mkRequest "POST" "/update" (mkPayload "nope" "" None)) {["s1" := stale]}
    = (mkResponse 404 (Text "Session not found"), {["s1" := stale]})
  /\ fetch 1000 (mkRequest "POST" "/get" (mkPayload "nope" "" None)) {["s1" := stale]}
    = (mkResponse 404 (Text "Session not found"), {["s1" := stale]})
  /\ fetch 1000 (mkRequest "DELETE" "/delete" (mkPayload "nope" "" None)) {["s1" := stale]}
    = (mkResponse 404 (Text "Session not found"), {["s1" := stale]})
  /\ ok (mkResponse 404 (Text "Session not found")) = false.
Proof.
  apply (missing_session_is_404 1000 (mkPayload "nope" "" None) {["s1" := stale]}).
  by vm_compute.
Defined.

(** A delete removes the session and nothing else, and the next read of the
    identifier is a 404. *)
Theorem delete_removes (now : Z) (p : Payload) (st : Storage) (s : SessionData) :
  st !! p_sessionId p = Some s ->
  deleteSession p st = (mkResponse 200 (Text "Session deleted"), delete (p_sessionId p) st)
  /\ getSession now p (deleteSession p st).2
     = (mkResponse 404 (Text "Session not found"), delete (p_sessionId p) st)
  /\ (forall k, k ≠ p_sessionId p -> (deleteSession p st).2 !! k = st !! k).
Proof.
  intros H. unfold deleteSession. rewrite H. simpl. split; [done|]. split.
  - unfold getSession. by rewrite lookup_delete_eq.
  - intros k Hk. by rewrite lookup_delete_ne.
Qed.

Lemma delete_removes_witness :
  deleteSession (mkPayload "s1" "" None) {["s1" := stale; "s2" := recent]}
  = (mkResponse 200 (Text "Session deleted"), delete "s1" {["s1" := stale; "s2" := recent]})
  /\ getSession 5 (mkPayload "s1" "" None)
       (deleteSession (mkPayload "s1" "" None) {["s1" := stale; "s2" := recent]}).2
     = (mkResponse 404 (Text "Session not found"),
        delete "s1" {["s1" := stale; "s2" := recent]})
  /\ (forall k, k ≠ "s1" ->
        (deleteSession (mkPayload "s1" "" None) {["s1" := stale; "s2" := recent]}).2 !! k
        = ({["s1" := stale; "s2" := recent]} : Storage) !! k).
Proof.
  apply (delete_removes 5 (mkPayload "s1" "" None) {["s1" := stale; "s2" := recent]} stale).
  by vm_compute.
Defined.

(** Deleting what was just created, on a store that did not hold the
    identifier, gives the store back. *)
Theorem create_then_delete (now : Z) (p : Payload) (st : Storage) :
  st !! p_sessionId p = None ->
  (deleteSession p (createSession now p st).2).2 = st.
Proof.
  intros H. unfold deleteSession, createSession. simpl.
  rewrite lookup_insert_eq. simpl. by rewrite delete_insert_id.
Qed.

Lemma create_then_delete_witness :
  (deleteSession (mkPayload "s2" "bob" None)
     (createSession 1000 (mkPayload "s2" "bob" None) {["s1" := stale]}).2).2
  = {["s1" := stale]}.
Proof.
  apply (create_then_delete 1000 (mkPayload "s2" "bob" None) {["s1" := stale]}).
  by vm_compute.
Defined.

(** A request that is none of the five routes is answered 404 and leaves the
    storage alone: each operation answers only to its own verb. *)
Theorem unrouted_is_404 (now : Z) (request : Request) (st : Storage) :
  is_route (rq_method request) (rq_path request) = false ->
  fetch now request st = (mkResponse 404 (Text "Not found"), st).
Proof.
  unfold is_route, fetch.
  destruct (String.eqb (rq_method request) "POST") eqn:HP;
  destruct (String.eqb (rq_method request) "DELETE") eqn:HD;
  destruct (String.eqb (rq_method request) "GET") eqn:HG;
  destruct (String.eqb (rq_path request) "/create");
  destruct (String.eqb (rq_path request) "/update");
  destruct (String.eqb (rq_path request) "/get");
  destruct (String.eqb (rq_path request) "/delete");
  destruct (String.eqb (rq_path request) "/cleanup"); simpl; try done.
Qed.

Lemma unrouted_is_404_witness :
  fetch 1000 (mkRequest "GET" "/get" (mkPayload "s1" "" None)) {["s1" := stale]}
  = (mkResponse 404 (Text "Not found"), {["s1" := stale]}).
Proof.
  apply (unrouted_is_404 1000 (mkRequest "GET" "/get" (mkPayload "s1" "" None))).
  reflexivity.
Defined.

(** Every route but the sweep touches at most the session its payload
    names. *)
Theorem keyed_routes_frame (now : Z) (request : Request) (st : Storage) (k : string) :
  k ≠ p_sessionId (rq_body request) ->
  (rq_method request, rq_path request) ≠ ("GET", "/cleanup") ->
  (fetch now request st).2 !! k = st !! k.
Proof.
  intros Hk Hroute. unfold fetch.
  destruct (String.eqb (rq_method request) "POST").
  { repeat case_match; try done;
      unfold createSession, updateSession, getSession in *; repeat case_match;
      simplify_eq; simpl; by rewrite ?lookup_insert_ne. }
  destruct (String.eqb (rq_method request) "DELETE").
  { repeat case_match; try done. unfold deleteSession in *. repeat case_match;
      simplify_eq; simpl; by rewrite ?lookup_delete_ne. }
  destruct (String.eqb (rq_method request) "GET") eqn:HG; [|done].
  destruct (String.eqb (rq_path request) "/cleanup") eqn:HC; [|done].
  apply String.eqb_eq in HG, HC. destruct Hroute. by rewrite HG, HC.
Qed.

Lemma keyed_routes_frame_witness :
  (fetch 1000 (mkRequest "POST" "/update" (mkPayload "s2" "" (Some {["tab" := Num 3]})))
     {["s1" := stale; "s2" := recent]}).2 !! "s1"
  = ({["s1" := stale; "s2" := recent]} : Storage) !! "s1".
Proof.
  apply (keyed_routes_frame 1000
           (mkRequest "POST" "/update" (mkPayload "s2" "" (Some {["tab" := Num 3]})))).
  - discriminate.
  - discriminate.
Defined.

(** Two updates in a row store what one update with the merged patch
    stores, the later patch winning where both name a key. *)
Theorem updates_compose
    (now1 now2 : Z) (sid u1 u2 : string) (patch1 patch2 : gmap string value)
    (st : Storage) (s : SessionData) :
  st !! sid = Some s ->
  (updateSession now2 (mkPayload sid u2 (Some patch2))
     (updateSession now1 (mkPayload sid u1 (Some patch1)) st).2).2
  = (updateSession now2 (mkPayload sid u2 (Some (patch2 ∪ patch1))) st).2
  /\ (updateSession now2 (mkPayload sid u2 (Some (patch2 ∪ patch1))) st).2 !! sid
     = Some (touched now2 s (patch2 ∪ patch1 ∪ metadata s)).
Proof.
  intros Hs. unfold updateSession. simpl. rewrite Hs. simpl.
  rewrite lookup_insert_eq. simpl. rewrite insert_insert_eq.
  unfold spread. rewrite (assoc_L (∪)). split; [done|].
  by rewrite lookup_insert_eq.
Qed.

Lemma updates_compose_witness :
  (updateSession 2000 (mkPayload "s2" "" (Some {["tab" := Num 4]}))
     (updateSession 1000 (mkPayload "s2" "" (Some {["tab" := Num 3; "os" := Str "mac"]}))
        {["s2" := recent]}).2).2
  = (updateSession 2000
       (mkPayload "s2" "" (Some ({["tab" := Num 4]} ∪ {["tab" := Num 3; "os" := Str "mac"]})))
       {["s2" := recent]}).2
  /\ (updateSession 2000
       (mkPayload "s2" "" (Some ({["tab" := Num 4]} ∪ {["tab" := Num 3; "os" := Str "mac"]})))
       {["s2" := recent]}).2 !! "s2"
     = Some (touched 2000 recent
               ({["tab" := Num 4]} ∪ {["tab" := Num 3; "os" := Str "mac"]} ∪ metadata recent)).
Proof.
  apply (updates_compose 1000 2000 "s2" "" "" {["tab" := Num 3; "os" := Str "mac"]}
           {["tab" := Num 4]} {["s2" := recent]} recent).
  apply lookup_singleton_eq.
Defined.

(** The sweep accounts for every session: what it removed and what it left
    add up to what it found, the count it reports as active is the size of
    the store it leaves, and what it leaves it leaves unchanged. *)
Theorem sweep_accounts (now : Z) (st : Storage) :
  exists cleaned active st',
    cleanupSessions now st = (mkResponse 200 (CleanupJson cleaned active), st')
    /\ (cleaned + active)%nat = size st
    /\ active = size st'
    /\ st' ⊆ st.
Proof.
  rewrite cleanupSessions_spec. eexists _, _, _. split; [reflexivity|].
  split; [apply size_kept_swept|]. split; [done|]. apply map_filter_subseteq.
Qed.

(** Sweeping at [now1] and then at a later [now2] leaves what one sweep at
    [now2] leaves, and the two counts of removed sessions add up to its
    count. *)
Theorem sweeps_compose (now1 now2 : Z) (st : Storage) :
  now1 <= now2 ->
  exists c1 a1 c2 a2 c,
    cleanupSessions now1 st = (mkResponse 200 (CleanupJson c1 a1), kept now1 st)
    /\ cleanupSessions now2 (kept now1 st)
       = (mkResponse 200 (CleanupJson c2 a2), kept now2 st)
    /\ cleanupSessions now2 st = (mkResponse 200 (CleanupJson c a2), kept now2 st)
    /\ (c1 + c2)%nat = c.
Proof.
  intros Hle. rewrite !cleanupSessions_spec, (kept_kept _ _ _ Hle).
  eexists _, _, _, _, _. split; [reflexivity|]. split; [reflexivity|].
  split; [reflexivity|].
  pose proof (size_kept_swept now1 st). pose proof (size_kept_swept now2 st).
  pose proof (size_kept_swept now2 (kept now1 st)) as H3.
  rewrite (kept_kept _ _ _ Hle) in H3. lia.
Qed.

Lemma sweeps_compose_witness :
  exists c1 a1 c2 a2 c,
    cleanupSessions 86400001 {["s1" := stale; "s2" := recent]}
    = (mkResponse 200 (CleanupJson c1 a1), kept 86400001 {["s1" := stale; "s2" := recent]})
    /\ cleanupSessions 172800001 (kept 86400001 {["s1" := stale; "s2" := recent]})
       = (mkResponse 200 (CleanupJson c2 a2),
          kept 172800001 {["s1" := stale; "s2" := recent]})
    /\ cleanupSessions 172800001 {["s1" := stale; "s2" := recent]}
       = (mkResponse 200 (CleanupJson c a2),
          kept 172800001 {["s1" := stale; "s2" := recent]})
    /\ (c1 + c2)%nat = c.
Proof.
  apply (sweeps_compose 86400001 172800001 {["s1" := stale; "s2" := recent]}). lia.
Defined.

(** A session that was read or updated at [t] survives every sweep that
    runs no later than 24 hours after [t]. *)
Theorem refreshed_session_survives
    (t now : Z) (request : Request) (st : Storage) (s : SessionData) :
  rq_method request = "POST" ->
  rq_path request = "/get" \/ rq_path request = "/update" ->
  st !! p_sessionId (rq_body request) = Some s ->
  now - t <= 86400000 ->
  exists s',
    (fetch t request st).2 !! p_sessionId (rq_body request) = Some s'
    /\ lastActivity s' = t
    /\ (cleanupSessions now (fetch t request st).2).2 !! p_sessionId (rq_body request)
       = Some s'.
Proof.
  intros Hm Hp Hs Hage. rewrite cleanupSessions_spec. cbn [snd].
  assert (exists s', (fetch t request st).2
                     = <[p_sessionId (rq_body request) := s']> st
                     /\ lastActivity s' = t) as (s' & -> & Ht).
  { unfold fetch. rewrite Hm.
    destruct Hp as [-> | ->]; simpl; unfold getSession, updateSession; rewrite Hs;
      by eexists. }
  exists s'. rewrite lookup_insert_eq. split; [done|]. split; [done|].
  apply kept_lookup. split; [apply lookup_insert_eq|].
  unfold expired, maxAge. lia.
Qed.

Lemma refreshed_session_survives_witness :
  exists s',
    (fetch 86400000 (mkRequest "POST" "/get" (mkPayload "s1" "" None))
       {["s1" := stale]}).2 !! "s1" = Some s'
    /\ lastActivity s' = 86400000
    /\ (cleanupSessions 172800000
          (fetch 86400000 (mkRequest "POST" "/get" (mkPayload "s1" "" None))
             {["s1" := stale]}).2).2 !! "s1" = Some s'.
Proof.
  apply (refreshed_session_survives 86400000 172800000
           (mkRequest "POST" "/get" (mkPayload "s1" "" None)) {["s1" := stale]} stale).
  - reflexivity.
  - left. reflexivity.
  - apply lookup_singleton_eq.
  - lia.
Defined.

End StoreFacts.

(** ** The earlier revision against the current one *)

Module LegacyStore.

Import Js SessionManager Samples SessionStore.

Lemma foldl_insert_list_to_map (l : list (string * SessionData)) (m : Storage) :
  NoDup l.*1 ->
  foldl (fun m entry => <[entry.1 := entry.2]> m) m l = list_to_map l ∪ m.
Proof.
  revert m. induction l as [|[k v] l IH]; intros m Hnd; simpl.
  - by rewrite (left_id_L ∅ (∪)).
  - apply NoDup_cons in Hnd as [Hk Hnd]. rewrite IH by done.
    rewrite <- insert_union_r by (by apply not_elem_of_list_to_map_1).
    by rewrite insert_union_l.
Qed.

(** The two sweep loops, run over the same entries from states that agree,
    stay in agreement. *)
Lemma sweep_folds_agree now l a b :
  LegacySessionManager.sw_sessions a = sw_storage b ->
  LegacySessionManager.cleanedCount a = cleanedCount b ->
  LegacySessionManager.sw_sessions (foldl (LegacySessionManager.sweep_step now) a l)
    = sw_storage (foldl (sweep_step now) b l)
  /\ LegacySessionManager.cleanedCount (foldl (LegacySessionManager.sweep_step now) a l)
    = cleanedCount (foldl (sweep_step now) b l).
Proof.
  revert a b. induction l as [|[k s] l IH]; intros a b Hs Hc; cbn [foldl]; [done|].
  apply IH; unfold LegacySessionManager.sweep_step, sweep_step;
    destruct (Z.gtb _ _); simpl; congruence.
Qed.

Lemma sweep_fold_mirror now l a :
  LegacySessionManager.sw_sessions a = LegacySessionManager.sw_storage a ->
  LegacySessionManager.sw_sessions (foldl (LegacySessionManager.sweep_step now) a l)
  = LegacySessionManager.sw_storage (foldl (LegacySessionManager.sweep_step now) a l).
Proof.
  revert a. induction l as [|[k s] l IH]; intros a H; cbn [foldl]; [done|].
  apply IH. unfold LegacySessionManager.sweep_step.
  destruct (Z.gtb _ _); simpl; congruence.
Qed.

Lemma sweep_fold_map_only now l a b :
  LegacySessionManager.sw_sessions a = LegacySessionManager.sw_sessions b ->
  LegacySessionManager.cleanedCount a = LegacySessionManager.cleanedCount b ->
  LegacySessionManager.sw_sessions (foldl (LegacySessionManager.sweep_step now) a l)
    = LegacySessionManager.sw_sessions (foldl (LegacySessionManager.sweep_step now) b l)
  /\ LegacySessionManager.cleanedCount (foldl (LegacySessionManager.sweep_step now) a l)
    = LegacySessionManager.cleanedCount (foldl (LegacySessionManager.sweep_step now) b l).
Proof.
  revert a b. induction l as [|[k s] l IH]; intros a b Hs Hc; cbn [foldl]; [done|].
  apply IH; unfold LegacySessionManager.sweep_step;
    destruct (Z.gtb _ _); simpl; congruence.
Qed.

(** The constructor, which sets the listed entries one by one into an empty
    map, leaves the map an exact copy of the storage it listed, and the
    storage as it was. *)
Theorem legacy_constructor_copies_storage (stored : Storage) :
  LegacySessionManager.sessions (LegacySessionManager.load stored) = stored
  /\ LegacySessionManager.storage (LegacySessionManager.load stored) = stored
  /\ LegacySessionManager.mirrored (LegacySessionManager.load stored).
Proof.
  assert (LegacySessionManager.sessions (LegacySessionManager.load stored) = stored) as H.
  { unfold LegacySessionManager.load. simpl.
    rewrite foldl_insert_list_to_map by apply NoDup_fst_map_to_list.
    by rewrite list_to_map_to_list, (right_id_L ∅ (∪)). }
  split; [done|]. split; [done|]. unfold LegacySessionManager.mirrored. by rewrite H.
Qed.

(** While the map mirrors the storage, the earlier revision answers every
    request as the current one does and leaves the same storage. *)
Theorem legacy_agrees_with_current (now : Z) (request : Request)
    (s : LegacySessionManager.State) :
  LegacySessionManager.mirrored s ->
  (LegacySessionManager.fetch now request s).1
    = (fetch now request (LegacySessionManager.storage s)).1
  /\ LegacySessionManager.storage (LegacySessionManager.fetch now request s).2
    = (fetch now request (LegacySessionManager.storage s)).2.
Proof.
  unfold LegacySessionManager.mirrored. destruct s as [m st]. simpl. intros ->.
  unfold LegacySessionManager.fetch, fetch. simpl.
  repeat case_match; try done;
    unfold LegacySessionManager.createSession, LegacySessionManager.updateSession,
      LegacySessionManager.getSession, LegacySessionManager.deleteSession,
      createSession, updateSession, getSession, deleteSession in *; simpl in *;
    repeat case_match; simplify_eq; simpl; try done.
  unfold LegacySessionManager.cleanupSessions, cleanupSessions,
    LegacySessionManager.sweep, sweep. simpl.
  destruct (sweep_folds_agree now (map_to_list st)
              (LegacySessionManager.mkSweep st st 0) (mkSweep st 0 0) eq_refl eq_refl)
    as [Hs Hc].
  pose proof (sweep_fold_mirror now (map_to_list st)
                (LegacySessionManager.mkSweep st st 0) eq_refl) as Hm.
  rewrite <- Hm, Hs, Hc. split; [|done].
  fold (sweep now st). destruct (sweep_counts now st) as [_ ->].
  by rewrite sweep_storage.
Qed.

Lemma legacy_agrees_with_current_witness :
  (LegacySessionManager.fetch 86400001 (mkRequest "GET" "/cleanup" (mkPayload "" "" None))
     (LegacySessionManager.load {["s1" := stale; "s2" := recent]})).1
    = (fetch 86400001 (mkRequest "GET" "/cleanup" (mkPayload "" "" None))
         (LegacySessionManager.storage
            (LegacySessionManager.load {["s1" := stale; "s2" := recent]}))).1
  /\ LegacySessionManager.storage
       (LegacySessionManager.fetch 86400001
          (mkRequest "GET" "/cleanup" (mkPayload "" "" None))
          (LegacySessionManager.load {["s1" := stale; "s2" := recent]})).2
    = (fetch 86400001 (mkRequest "GET" "/cleanup" (mkPayload "" "" None))
         (LegacySessionManager.storage
            (LegacySessionManager.load {["s1" := stale; "s2" := recent]}))).2.
Proof.
  apply legacy_agrees_with_current. by vm_compute.
Defined.

(** After construction the earlier revision never reads the storage: its
    answer and its map depend on the map alone. *)
Theorem legacy_answers_from_the_map (now : Z) (request : Request)
    (s1 s2 : LegacySessionManager.State) :
  LegacySessionManager.sessions s1 = LegacySessionManager.sessions s2 ->
  (LegacySessionManager.fetch now request s1).1
    = (LegacySessionManager.fetch now request s2).1
  /\ LegacySessionManager.sessions (LegacySessionManager.fetch now request s1).2
    = LegacySessionManager.sessions (LegacySessionManager.fetch now request s2).2.
Proof.
  destruct s1 as [m st1], s2 as [m2 st2]. simpl. intros <-.
  unfold LegacySessionManager.fetch. simpl.
  repeat case_match; try done;
    unfold LegacySessionManager.createSession, LegacySessionManager.updateSession,
      LegacySessionManager.getSession, LegacySessionManager.deleteSession in *; simpl in *;
    repeat case_match; simplify_eq; simpl; try done.
  unfold LegacySessionManager.cleanupSessions, LegacySessionManager.sweep. simpl.
  destruct (sweep_fold_map_only now (map_to_list m)
              (LegacySessionManager.mkSweep m st1 0) (LegacySessionManager.mkSweep m st2 0)
              eq_refl eq_refl) as [-> ->].
  done.
Qed.

Lemma legacy_answers_from_the_map_witness :
  (LegacySessionManager.fetch 1000 (mkRequest "POST" "/get" (mkPayload "s1" "" None))
     (LegacySessionManager.mkState {["s1" := stale]} ∅)).1
    = (LegacySessionManager.fetch 1000 (mkRequest "POST" "/get" (mkPayload "s1" "" None))
         (LegacySessionManager.mkState {["s1" := stale]} {["s1" := stale]})).1
  /\ LegacySessionManager.sessions
       (LegacySessionManager.fetch 1000 (mkRequest "POST" "/get" (mkPayload "s1" "" None))
          (LegacySessionManager.mkState {["s1" := stale]} ∅)).2
    = LegacySessionManager.sessions
        (LegacySessionManager.fetch 1000 (mkRequest "POST" "/get" (mkPayload "s1" "" None))
           (LegacySessionManager.mkState {["s1" := stale]} {["s1" := stale]})).2.
Proof.
  apply legacy_answers_from_the_map. reflexivity.
Defined.

End LegacyStore.

(** ** Further properties of the handler *)

Module TransportFacts.

Import Js StreamableHttp Samples Transport Observations.

Lemma only_logged_refl w : only_logged w w.
Proof. exists []. split; [by rewrite app_nil_r|constructor]. Qed.

Lemma only_logged_eta w : only_logged w (mkWorld (storage w) (trace w)).
Proof. exists []. simpl. split; [by rewrite app_nil_r|constructor]. Qed.

Lemma only_logged_trans w1 w2 w3 : only_logged w1 w2 -> only_logged w2 w3 -> only_logged w1 w3.
Proof.
  intros (m1 & H1 & F1) (m2 & H2 & F2). exists (m1 ++ m2)%list.
  split; [by rewrite H2, H1, app_assoc|by apply Forall_app].
Qed.

Lemma only_logged_not_dispatched w w' : only_logged w w' -> ¬ dispatched w w'.
Proof.
  intros (m1 & H1 & F1) [m2 H2]. rewrite H1 in H2. apply app_inv_head in H2.
  subst. by apply Forall_cons in F1 as [? _].
Qed.

(** *** The classifier, on every value *)

(** The classifier never throws, and it accepts a body exactly when the
    body is an object whose [jsonrpc] is ["2.0"], whose [method] is a
    string (the empty one included) and whose [id] is absent, [null], a
    number or a string; [params] and any other member play no part. *)
Theorem classifier_characterised (body : value) :
  (exists b, isValidJsonRpc body = Normal b)
  /\ (isValidJsonRpc body = Normal true <->
      exists props m,
        body = Obj props
        /\ prop props "jsonrpc" = Str "2.0"
        /\ prop props "method" = Str m
        /\ invalid_id (prop props "id") = false).
Proof.
  split; [apply isValidJsonRpc_total|]. split.
  - intros Hv. pose proof (valid_truthy _ Hv) as Ht.
    destruct body as [| |b|n|s|l|props]; try discriminate.
    + unfold isValidJsonRpc in Hv. rewrite Ht in Hv. discriminate.
    + unfold isValidJsonRpc in Hv. rewrite Ht in Hv. discriminate.
    + unfold isValidJsonRpc in Hv. rewrite Ht in Hv. discriminate.
    + rewrite isValidJsonRpc_object in Hv. injection Hv as Hv.
      apply andb_prop in Hv as [Hv Hi]. apply andb_prop in Hv as [Hj Hm].
      apply is_string_spec in Hj. apply typeof_string in Hm as [m Hm].
      exists props, m. repeat split; try done. by destruct (invalid_id _).
  - intros (props & m & -> & Hj & Hm & Hi).
    by rewrite isValidJsonRpc_object, Hj, Hm, Hi.
Qed.

Section Facts.

Variables (rt : Runtime) (env : Env) (u : string).

(** *** Session resolution, in full *)

Lemma register_logged sessionId w :
  exists w',
    try_catch
      (session_manager_fetch env (create_request sessionId u);; mret tt)
      (fun e =>
         emit (Console "warn" "Failed to create session in Durable Object:" (Some e));;
         mret tt) w
    = (Normal tt, w')
    /\ storage w' = (if reachable env (create_request sessionId u)
                     then <[sessionId := new_session env sessionId u]> (storage w)
                     else storage w)
    /\ only_logged w w'.
Proof.
  unfold try_catch, reachable. step. unfold session_manager_fetch.
  destruct (session_manager_fault env _) as [e|].
  - eexists. split; [reflexivity|]. split; [done|].
    eexists [_]. split; [reflexivity|]. by repeat constructor.
  - eexists. split; [reflexivity|]. split; [done|]. apply only_logged_eta.
Qed.

Lemma lookupSession_full request w :
  exists w1,
    lookupSession env request w
    = (Normal (if lookup_succeeds env request w then presented request else None), w1)
    /\ only_logged w w1
    /\ storage w1
       = if lookup_succeeds env request w then
           match storage w !! resolved env request w with
           | Some s =>
               <[resolved env request w :=
                   touched (Date_now env tt) s (SessionManager.metadata s)]> (storage w)
           | None => storage w
           end
         else storage w.
Proof.
  unfold resolved.
  unfold lookupSession, lookup_succeeds, presented, reachable.
  destruct (rq_headers request !! "Mcp-Session-Id") as [h|];
    [|eexists; split; [reflexivity|]; split; [apply only_logged_refl|done]].
  destruct (String.eqb h "") eqn:Hh; cbn [negb andb];
    [eexists; split; [reflexivity|]; split; [apply only_logged_refl|done]|].
  unfold try_catch. step. unfold session_manager_fetch, get_request.
  destruct (session_manager_fault env _) as [e|]; cbn [andb].
  { eexists. split; [reflexivity|]. split; [|done].
    eexists [_]. split; [reflexivity|]. by repeat constructor. }
  cbn -[bool_decide]. unfold SessionManager.getSession. cbn -[bool_decide].
  destruct (storage w !! h) as [s|] eqn:Hs.
  - rewrite bool_decide_eq_true_2 by eauto. eexists. split; [reflexivity|].
    split; [apply only_logged_eta|]. simpl. by rewrite Hs.
  - rewrite bool_decide_eq_false_2 by (by intros [? ?]).
    eexists. split; [reflexivity|]. split; [apply only_logged_eta|done].
Qed.

(** Session resolution never throws; it settles on [resolved], leaves the
    store as [resolved_storage] says and otherwise only writes warnings. *)
Lemma getOrCreateSession_spec request w :
  exists w',
    getOrCreateSession env u request w = (Normal (resolved env request w), w')
    /\ storage w' = resolved_storage env u request w
    /\ only_logged w w'.
Proof.
  destruct (lookupSession_full request w) as (w1 & Hl & Hlog & Hst).
  unfold getOrCreateSession. step. rewrite Hl.
  unfold resolved_storage, resolved in *.
  destruct (lookup_succeeds env request w) eqn:Hok.
  - unfold lookup_succeeds in Hok.
    destruct (presented request) as [h|]; [|discriminate].
    exists w1. by repeat split.
  - destruct (register_logged (uuidv4 env tt) w1) as (w' & Hr & Hst' & Hlog').
    unfold create_request in Hr. step. rewrite Hr.
    exists w'. split; [by destruct (presented request)|].
    split; [by rewrite Hst', Hst|]. by eapply only_logged_trans.
Qed.

(** *** The POST path, in full *)

Lemma handlePost_nullish request body sessionId w :
  json request = Some body ->
  nullish body = true ->
  handlePost rt env u request sessionId w
  = (Normal (createErrorResponse parse_error Null sessionId),
     parse_error_logged w (TypeError body "id")).
Proof.
  intros Hj Hn. unfold handlePost, try_catch.
  step. unfold request_json. rewrite Hj. unfold mret at 1, M_ret at 1.
  by destruct body.
Qed.

Lemma parse_error_only_logged w e : only_logged w (parse_error_logged w e).
Proof. eexists [_]. split; [reflexivity|]. by repeat constructor. Qed.

Lemma handlePost_outcome request sessionId w :
  exists resp w',
    handlePost rt env u request sessionId w = (Normal resp, w')
    /\ headers resp = json_headers sessionId
    /\ status resp = (if accepted request then 202 else 400)
    /\ storage w' = storage w
    /\ (if accepted request then dispatched w w' else only_logged w w').
Proof.
  unfold accepted. destruct (json request) as [body|] eqn:Hj.
  - destruct (isValidJsonRpc_total body) as [[] Hv]; rewrite Hv.
    + destruct (handlePost_valid rt env u request body sessionId w Hj Hv)
        as (res & w' & i & _ & Hh & _ & _ & _ & _ & Hst & Hd).
      by eexists _, _.
    + destruct (nullish body) eqn:Hn.
      * eexists _, _. split; [by apply handlePost_nullish|].
        repeat split. apply parse_error_only_logged.
      * assert (exists i, get body "id" = Normal i) as [i Hi]
          by (destruct body; try discriminate; simpl; eauto).
        eexists _, _. split; [by eapply handlePost_invalid|].
        repeat split. apply only_logged_refl.
  - eexists _, _. split; [by apply handlePost_unparseable|].
    repeat split. apply parse_error_only_logged.
Qed.

(** *** The entry point *)

Lemma handleRequest_outcome request w :
  String.eqb (method request) "OPTIONS" = false ->
  exists resp w1 w',
    getOrCreateSession env u request w = (Normal (resolved env request w), w1)
    /\ handleRequest rt env u request w = (Normal resp, w')
    /\ storage w' = resolved_storage env u request w
    /\ status resp = expected_status request
    /\ (if String.eqb (method request) "POST" then
          headers resp = json_headers (resolved env request w)
          /\ (if accepted request then dispatched w1 w' else only_logged w w')
        else if String.eqb (method request) "GET" then
          resp = (if bool_decide ("capabilities" ∈ query request)
                  then createCapabilitiesResponse (resolved env request w)
                  else createSSEStream (resolved env request w))
          /\ only_logged w w'
        else resp = mkResponse 405 ∅ (Plain "Method not allowed") /\ only_logged w w').
Proof.
  intros Hopt. unfold handleRequest, expected_status. rewrite Hopt.
  destruct (getOrCreateSession_spec request w) as (w1 & Hs & Hst & Hlog).
  step. rewrite Hs.
  destruct (String.eqb (method request) "POST").
  - destruct (handlePost_outcome request (resolved env request w) w1)
      as (resp & w' & -> & Hh & Hstat & Hst' & Hd).
    eexists _, _, _. split; [done|]. split; [reflexivity|].
    split; [congruence|]. split; [done|]. split; [done|].
    destruct (accepted request); [done|]. by eapply only_logged_trans.
  - destruct (String.eqb (method request) "GET").
    + unfold handleGet. destruct (bool_decide _); by eexists _, _, _.
    + by eexists _, _, _.
Qed.

Lemma json_headers_session sessionId :
  json_headers sessionId !! "Mcp-Session-Id" = Some sessionId
  /\ json_headers sessionId !! "Access-Control-Allow-Origin" = Some "*"
  /\ json_headers sessionId !! "Access-Control-Expose-Headers" = Some "Mcp-Session-Id".
Proof.
  unfold json_headers. split; [|by split].
  apply addCorsHeaders_keeps; [|done..]. apply lookup_insert_eq.
Qed.

Lemma createSSEStream_session sessionId :
  headers (createSSEStream sessionId) !! "Mcp-Session-Id" = Some sessionId
  /\ headers (createSSEStream sessionId) !! "Access-Control-Allow-Origin" = Some "*"
  /\ headers (createSSEStream sessionId) !! "Access-Control-Expose-Headers"
     = Some "Mcp-Session-Id".
Proof.
  simpl. split; [|by split].
  apply addCorsHeaders_keeps; [|done..]. apply lookup_insert_eq.
Qed.

(** The answer to a POST or a GET names the resolved session. *)
Lemma handleRequest_names_session request w :
  method request = "POST" \/ method request = "GET" ->
  exists resp w',
    handleRequest rt env u request w = (Normal resp, w')
    /\ storage w' = resolved_storage env u request w
    /\ headers resp !! "Mcp-Session-Id" = Some (resolved env request w)
    /\ headers resp !! "Access-Control-Allow-Origin" = Some "*"
    /\ headers resp !! "Access-Control-Expose-Headers" = Some "Mcp-Session-Id".
Proof.
  intros Hm.
  assert (String.eqb (method request) "OPTIONS" = false) as Hopt
    by (by destruct Hm as [-> | ->]).
  destruct (handleRequest_outcome request w Hopt)
    as (resp & w1 & w' & _ & Hr & Hst & _ & Hcase).
  exists resp, w'. split; [done|]. split; [done|].
  destruct Hm as [Hm|Hm]; rewrite Hm in Hcase; simpl in Hcase.
  - destruct Hcase as [-> _]. apply json_headers_session.
  - destruct Hcase as [-> _]. destruct (bool_decide _).
    + apply (json_headers_session (resolved env request w)).
    + apply createSSEStream_session.
Qed.

(** A known tool with arguments to read answers with a tool result. *)
Lemma known_tool_answers body params args t w :
  get body "method" = Normal (Str "tools/call") ->
  get body "params" = Normal params ->
  get params "name" = Normal (Str (tool_name t)) ->
  get params "arguments" = Normal args ->
  nullish args = false ->
  exists text err w',
    processJsonRpcRequest rt env u body w
    = (Normal (mkJsonRpcResponse "2.0" (Some (OfTool (textResult text err))) None
                 (or_else (match get body "id" with Normal i => i | Throw _ => Undefined end)
                          Null)), w').
Proof.
  intros Hm Hp Hn Ha Hnn.
  assert (exists i, get body "id" = Normal i) as [i Hi]
    by (destruct body; try discriminate; simpl; eauto).
  assert (exists x, get args (tool_argument t) = Normal x) as [x Hx]
    by (destruct args; try discriminate; simpl; eauto).
  rewrite Hi.
  assert (exists text err w', handleToolCall rt env u body (entered w)
            = (Normal (mkJsonRpcResponse "2.0" (Some (OfTool (textResult text err))) None
                         (or_else i Null)), w')) as (text & err & w' & Hc).
  { unfold handleToolCall. step. rewrite Hp. step. rewrite Hn. step. rewrite Ha.
    destruct t; simpl in *.
    - step. rewrite Hx. step.
      destruct (addToMCPMemory_returns rt env u x (entered w)) as (text & err & w' & -> & _).
      rewrite Hi. by eexists _, _, _.
    - step. rewrite Hx. step.
      destruct (searchMCPMemory_returns rt env u x (entered w)) as (text & err & w' & -> & _).
      rewrite Hi. by eexists _, _, _. }
  exists text, err, w'. by apply dispatch_tool_call_normal.
Qed.

End Facts.

(** The entry point never throws, and the status of its answer is settled
    by the HTTP method and, for a POST, by whether the body passes the
    classifier: 204 for OPTIONS, 202 or 400 for POST, 200 for GET and 405
    for anything else, whatever the session store and the backends do. *)
Theorem handleRequest_status
    (rt : Runtime) (env : Env) (userId : string) (request : Request) (w : World) :
  exists resp w',
    handleRequest rt env userId request w = (Normal resp, w')
    /\ status resp = expected_status request.
Proof.
  destruct (String.eqb (method request) "OPTIONS") eqn:Hopt.
  - unfold handleRequest, expected_status. rewrite Hopt. by eexists _, _.
  - destruct (handleRequest_outcome rt env userId request w Hopt)
      as (resp & w1 & w' & _ & Hr & _ & Hs & _).
    by exists resp, w'.
Qed.

(** Every answer to a POST or a GET names the resolved session in
    [Mcp-Session-Id] and carries the cross-origin headers that expose it;
    the answer to an unsupported method names no session and allows no
    origin. *)
Theorem session_header_on_every_answer
    (rt : Runtime) (env : Env) (userId : string) (request : Request) (w : World) :
  method request ≠ "OPTIONS" ->
  exists resp w',
    handleRequest rt env userId request w = (Normal resp, w')
    /\ if String.eqb (method request) "POST" || String.eqb (method request) "GET" then
         headers resp !! "Mcp-Session-Id" = Some (resolved env request w)
         /\ headers resp !! "Access-Control-Allow-Origin" = Some "*"
         /\ headers resp !! "Access-Control-Expose-Headers" = Some "Mcp-Session-Id"
       else headers resp !! "Mcp-Session-Id" = None
            /\ headers resp !! "Access-Control-Allow-Origin" = None.
Proof.
  intros Hopt. apply String.eqb_neq in Hopt.
  destruct (handleRequest_outcome rt env userId request w Hopt)
    as (resp & w1 & w' & _ & Hr & _ & _ & Hcase).
  exists resp, w'. split; [done|].
  destruct (String.eqb (method request) "POST") eqn:HP; cbn [orb].
  { destruct Hcase as [-> _]. apply json_headers_session. }
  destruct (String.eqb (method request) "GET") eqn:HG.
  { destruct Hcase as [-> _]. destruct (bool_decide _).
    - apply (json_headers_session (resolved env request w)).
    - apply createSSEStream_session. }
  by destruct Hcase as [-> _].
Qed.

(** Nothing but session resolution changes the session store: after any
    request other than a preflight the store is what resolution left, and
    after a preflight it is what it was. *)
Theorem store_changes_only_by_resolution
    (rt : Runtime) (env : Env) (userId : string) (request : Request) (w : World) :
  exists resp w',
    handleRequest rt env userId request w = (Normal resp, w')
    /\ storage w' = if String.eqb (method request) "OPTIONS" then storage w
                    else resolved_storage env userId request w.
Proof.
  destruct (String.eqb (method request) "OPTIONS") eqn:Hopt.
  - unfold handleRequest. rewrite Hopt. by eexists _, _.
  - destruct (handleRequest_outcome rt env userId request w Hopt)
      as (resp & w1 & w' & _ & Hr & Hst & _).
    by exists resp, w'.
Qed.

(** A request with an unsupported method is refused with 405 only after its
    session has been resolved: when it presents no identifier and the store
    can be reached, a session is minted and stored for it all the same. *)
Theorem unsupported_method_still_mints
    (rt : Runtime) (env : Env) (userId : string) (request : Request) (w : World) :
  method request ≠ "OPTIONS" -> method request ≠ "POST" -> method request ≠ "GET" ->
  presented request = None ->
  reachable env (create_request (uuidv4 env tt) userId) = true ->
  exists resp w',
    handleRequest rt env userId request w = (Normal resp, w')
    /\ status resp = 405
    /\ body resp = Plain "Method not allowed"
    /\ headers resp !! "Mcp-Session-Id" = None
    /\ storage w'
       = <[uuidv4 env tt := new_session env (uuidv4 env tt) userId]> (storage w).
Proof.
  intros HO HP HG Hnone Hup. apply String.eqb_neq in HO, HP, HG.
  destruct (handleRequest_outcome rt env userId request w HO)
    as (resp & w1 & w' & _ & Hr & Hst & _ & Hcase).
  rewrite HP, HG in Hcase. destruct Hcase as [-> _].
  eexists _, w'. split; [done|]. repeat (split; [done|]). rewrite Hst.
  unfold resolved_storage, lookup_succeeds. by rewrite Hnone, Hup.
Qed.

Lemma unsupported_method_still_mints_witness :
  exists resp w',
    handleRequest runtime env_up "alice" (mkRequest "PUT" [] ∅ None) world0
    = (Normal resp, w')
    /\ status resp = 405
    /\ body resp = Plain "Method not allowed"
    /\ headers resp !! "Mcp-Session-Id" = None
    /\ storage w' = <[minted := new_session env_up minted "alice"]> (storage world0).
Proof.
  apply (unsupported_method_still_mints runtime env_up "alice" (mkRequest "PUT" [] ∅ None)
           world0); try discriminate; reflexivity.
Defined.



Lemma session_header_on_every_answer_witness :
  exists resp w',
    handleRequest runtime env_down "alice"
      (post {["Mcp-Session-Id" := "s1"]} None) world0 = (Normal resp, w')
    /\ if String.eqb (method (post {["Mcp-Session-Id" := "s1"]} None)) "POST"
          || String.eqb (method (post {["Mcp-Session-Id" := "s1"]} None)) "GET" then
         headers resp !! "Mcp-Session-Id"
         = Some (resolved env_down (post {["Mcp-Session-Id" := "s1"]} None) world0)
         /\ headers resp !! "Access-Control-Allow-Origin" = Some "*"
         /\ headers resp !! "Access-Control-Expose-Headers" = Some "Mcp-Session-Id"
       else headers resp !! "Mcp-Session-Id" = None
            /\ headers resp !! "Access-Control-Allow-Origin" = None.
Proof.
  apply (session_header_on_every_answer runtime env_down "alice"
           (post {["Mcp-Session-Id" := "s1"]} None) world0).
  discriminate.
Defined.

(** The envelope that answers a POST with an object body carries
    [body.id || null] as its identifier, on the rejected path as on the
    dispatched one: a non-empty string or a non-zero number comes back as it
    was sent, and an absent, [null], [0] or empty identifier comes back
    [null]. *)
Theorem post_answer_identifier
    (rt : Runtime) (env : Env) (userId : string)
    (request : Request) (sessionId : string) (props : list (string * value)) (w : World) :
  json request = Some (Obj props) ->
  exists res w',
    handlePost rt env userId request sessionId w
    = (Normal (mkResponse (if accepted request then 202 else 400)
                 (json_headers sessionId) (Json (RpcDoc res))), w')
    /\ id res = if truthy (prop props "id") then prop props "id" else Null.
Proof.
  intros Hj. unfold accepted. rewrite Hj.
  destruct (isValidJsonRpc_total (Obj props)) as [[] Hv]; rewrite Hv.
  - destruct (handlePost_valid rt env userId request _ sessionId w Hj Hv)
      as (res & w' & i & _ & Hh & [= <-] & _ & Hid & _).
    by exists res, w'.
  - exists (error_envelope invalid_request (or_else (prop props "id") Null)), w.
    split; [|reflexivity].
    by rewrite (handlePost_invalid rt env userId request _ (prop props "id") sessionId w Hj Hv).
Qed.

Lemma post_answer_identifier_witness :
  exists res w',
    handlePost runtime env_up "alice"
      (post ∅ (Some (envelope "tools/list" [("id", Str "abc")]))) "s1" world0
    = (Normal (mkResponse 202 (json_headers "s1") (Json (RpcDoc res))), w')
    /\ id res = Str "abc".
Proof.
  apply (post_answer_identifier runtime env_up "alice"
           (post ∅ (Some (envelope "tools/list" [("id", Str "abc")]))) "s1"
           [("jsonrpc", Str "2.0"); ("method", Str "tools/list"); ("id", Str "abc")] world0).
  reflexivity.
Defined.

(** The catalogue and the dispatcher agree: a name that [tools/list]
    advertises, called with an [arguments] value that can be read, is
    answered with a tool result and never with an error envelope, whatever
    the backends do; a name it does not advertise is never answered with a
    result: the answer is the tool-scoped Method not found error when the
    name can be rendered as a string, and Internal error, with the thrown
    error as [data], when rendering it throws. *)
Theorem listed_tools_are_the_callable_ones
    (rt : Runtime) (env : Env) (userId : string)
    (lister caller params name args i : value) (listing : JsonRpcResponse) (w0 w1 w : World) :
  handleToolsList lister w0 = (Normal listing, w1) ->
  get caller "method" = Normal (Str "tools/call") ->
  get caller "id" = Normal i ->
  get caller "params" = Normal params ->
  get params "name" = Normal name ->
  get params "arguments" = Normal args ->
  (name ∈ listed_tools listing -> nullish args = false ->
   exists text err w',
     processJsonRpcRequest rt env userId caller w
     = (Normal (mkJsonRpcResponse "2.0" (Some (OfTool (textResult text err))) None
                  (or_else i Null)), w'))
  /\ (name ∉ listed_tools listing ->
      exists w',
        processJsonRpcRequest rt env userId caller w
        = (Normal (match ToString rt name with
                   | Normal shown => error_envelope (unknown_tool shown) (or_else i Null)
                   | Throw e => internal_error rt e i
                   end), w')).
Proof.
  intros Hl Hm Hi Hp Hn Ha.
  assert (listed_tools listing = [Str "addToMCPMemory"; Str "searchMCPMemory"]) as ->.
  { unfold handleToolsList in Hl. revert Hl. step.
    destruct (get lister "id"); [|discriminate]. by intros [= <- _]. }
  split.
  - intros Hin Hnn.
    assert (exists t, name = Str (tool_name t)) as [t ->].
    { apply elem_of_cons in Hin as [->|Hin]; [by exists AddToMCPMemory|].
      apply elem_of_cons in Hin as [->|Hin]; [by exists SearchMCPMemory|].
      by apply elem_of_nil in Hin. }
    destruct (known_tool_answers rt env userId caller params args t w Hm Hp Hn Ha Hnn)
      as (text & err & w' & Hrun).
    rewrite Hi in Hrun. by exists text, err, w'.
  - intros Hnotin.
    assert (forall t, name ≠ Str (tool_name t)) as Hunknown.
    { intros t ->. apply Hnotin. destruct t; simpl; set_solver. }
    assert (nullish params = false) as Hnn by (by destruct params).
    destruct (ToString rt name) as [shown|e] eqn:Hs.
    + eexists. apply dispatch_tool_call_normal; [done|].
      by eapply handleToolCall_unknown_tool.
    + eapply dispatch_tool_call_throw; [done..|].
      by eapply handleToolCall_unprintable_tool.
Qed.

Lemma listed_tools_are_the_callable_ones_witness :
  (exists text err w',
     processJsonRpcRequest runtime env_down "alice"
       (envelope "tools/call"
          [("params", Obj [("name", Str "searchMCPMemory"); ("arguments", Obj [])]);
           ("id", Num 2)]) world0
     = (Normal (mkJsonRpcResponse "2.0" (Some (OfTool (textResult text err))) None (Num 2)),
        w'))
  /\ (exists w',
        processJsonRpcRequest runtime env_down "alice"
          (envelope "tools/call"
             [("params", Obj [("name", Obj [("toString", Num 1)]); ("arguments", Obj [])]);
              ("id", Num 2)]) world0
        = (Normal (internal_error runtime
                     (Raised "TypeError: Cannot convert object to primitive value")
                     (Num 2)), w')).
Proof.
  split.
  - destruct (listed_tools_are_the_callable_ones runtime env_down "alice"
                (envelope "tools/list" [("id", Num 1)])
                (envelope "tools/call"
                   [("params", Obj [("name", Str "searchMCPMemory"); ("arguments", Obj [])]);
                    ("id", Num 2)])
                (Obj [("name", Str "searchMCPMemory"); ("arguments", Obj [])])
                (Str "searchMCPMemory") (Obj []) (Num 2)
                (mkJsonRpcResponse "2.0" (Some (OfValue (Obj [("tools", tools)]))) None
                   (Num 1))
                world0 world0 world0 eq_refl eq_refl eq_refl eq_refl eq_refl eq_refl)
      as [H _].
    apply H; [|reflexivity].
    apply elem_of_cons. right. apply elem_of_cons. by left.
  - destruct (listed_tools_are_the_callable_ones runtime env_down "alice"
                (envelope "tools/list" [("id", Num 1)])
                (envelope "tools/call"
                   [("params", Obj [("name", Obj [("toString", Num 1)]);
                                    ("arguments", Obj [])]);
                    ("id", Num 2)])
                (Obj [("name", Obj [("toString", Num 1)]); ("arguments", Obj [])])
                (Obj [("toString", Num 1)]) (Obj []) (Num 2)
                (mkJsonRpcResponse "2.0" (Some (OfValue (Obj [("tools", tools)]))) None
                   (Num 1))
                world0 world0 world0 eq_refl eq_refl eq_refl eq_refl eq_refl eq_refl)
      as [_ H].
    apply H. intros Hin.
    repeat (apply elem_of_cons in Hin as [Hin|Hin]; [discriminate|]).
    by apply elem_of_nil in Hin.
Defined.

(** A valid envelope whose method is none of the three known ones is
    answered with Method not found, and that protocol error travels with
    HTTP status 202, not 400; no backend is entered on the way. *)
Theorem unknown_method_is_202
    (rt : Runtime) (env : Env) (userId : string)
    (request : Request) (sessionId : string) (body : value) (m : string) (w : World) :
  json request = Some body ->
  isValidJsonRpc body = Normal true ->
  get body "method" = Normal (Str m) ->
  m ∉ ["initialize"; "tools/list"; "tools/call"] ->
  handlePost rt env userId request sessionId w
  = (Normal (mkResponse 202 (json_headers sessionId)
               (Json (RpcDoc (error_envelope method_not_found
                                (or_else (match get body "id" with
                                          | Normal i => i
                                          | Throw _ => Undefined
                                          end) Null))))),
     entered w).
Proof.
  intros Hj Hv Hm Hnot.
  destruct (get_total body "id" (valid_truthy _ Hv)) as [i Hi]. rewrite Hi.
  assert (String.eqb m "tools/call" = false /\ String.eqb m "tools/list" = false
          /\ String.eqb m "initialize" = false) as (H1 & H2 & H3).
  { repeat split; apply String.eqb_neq; intros ->; apply Hnot; set_solver. }
  assert (processJsonRpcRequest rt env userId body w
          = (Normal (error_envelope method_not_found (or_else i Null)), entered w)) as Hp.
  { unfold processJsonRpcRequest.
    step. unfold emit at 1. cbv beta iota. unfold try_catch at 1.
    step. rewrite Hm. cbn [is_string]. rewrite H1, H2, H3. by rewrite Hi. }
  destruct (handlePost_valid rt env userId request body sessionId w Hj Hv)
    as (res & w' & i' & Hp' & -> & _).
  rewrite Hp in Hp'. by injection Hp' as <- <-.
Qed.

Lemma unknown_method_is_202_witness :
  handlePost runtime env_up "alice"
    (post ∅ (Some (envelope "resources/list" [("id", Str "9")]))) "s1" world0
  = (Normal (mkResponse 202 (json_headers "s1")
               (Json (RpcDoc (error_envelope method_not_found (Str "9"))))),
     entered world0).
Proof.
  apply (unknown_method_is_202 runtime env_up "alice"
           (post ∅ (Some (envelope "resources/list" [("id", Str "9")]))) "s1"
           (envelope "resources/list" [("id", Str "9")]) "resources/list" world0);
    [reflexivity | reflexivity | reflexivity |].
  intros H. repeat (apply elem_of_cons in H as [H|H]; [discriminate|]).
  by apply elem_of_nil in H.
Defined.

(** [addToMCPMemory] writes to the vector store first and to D1 second, and
    gives up at the first failure: when the vector store throws, D1 is never
    entered; when D1 throws, the answer is the failure text although the
    vector store was written; when both succeed, the answer is
    "Remembered: ..." with no error flag if the text can be rendered as a
    string, and the failure text with the error flag if rendering it for the
    log line throws, although both stores were written. *)
Theorem remember_outcomes
    (rt : Runtime) (env : Env) (userId : string) (thing : value) (w : World) :
  let failed e events :=
    (Normal (textResult ("Failed to remember: " +:+ String_of_error rt e) (Some true)),
     mkWorld (storage w)
       (trace w ++ events ++ [Console "error" "Error storing memory:" (Some e)])) in
  addToMCPMemory rt env userId thing w
  = match storeMemory env thing userId with
    | Throw e => failed e [Invoked "storeMemory"]
    | Normal memoryId =>
        match storeMemoryInD1 env thing userId memoryId with
        | Throw e => failed e [Invoked "storeMemory"; Invoked "storeMemoryInD1"]
        | Normal _ =>
            match ToString rt thing with
            | Throw e => failed e [Invoked "storeMemory"; Invoked "storeMemoryInD1"]
            | Normal shown =>
                (Normal (textResult ("Remembered: " +:+ shown) None),
                 mkWorld (storage w)
                   (trace w ++ [Invoked "storeMemory"; Invoked "storeMemoryInD1";
                                stored_line memoryId shown]))
            end
        end
    end.
Proof.
  intros failed. subst failed. unfold addToMCPMemory, try_catch.
  step. unfold emit at 1. step.
  destruct (storeMemory env thing userId) as [memoryId|e].
  - step. unfold emit at 1. step.
    destruct (storeMemoryInD1 env thing userId memoryId) as [[]|e].
    + step. destruct (ToString rt thing) as [shown|e].
      * unfold mbind, M_bind, emit, mret, M_ret, lift. simpl.
        by rewrite <- !app_assoc.
      * unfold mbind, M_bind, emit, mret, M_ret. simpl. by rewrite <- !app_assoc.
    + unfold mbind, M_bind, emit, mret, M_ret. simpl. by rewrite <- !app_assoc.
  - unfold mbind, M_bind, emit, mret, M_ret. simpl. by rewrite <- !app_assoc.
Qed.

(** A search that finds nothing is a success, not an error: the answer is
    the text "No relevant memories found." with no error flag; a search
    that finds something lists one line per memory under "Found
    memories:". *)
Theorem search_outcomes
    (rt : Runtime) (env : Env) (userId : string) (query : value) (shown : string)
    (memories : list Memory) (w : World) :
  ToString rt query = Normal shown ->
  searchMemories env query userId = Normal memories ->
  exists w',
    searchMCPMemory rt env userId query w
    = (Normal (textResult
                 (match memories with
                  | [] => "No relevant memories found."
                  | _ => "Found memories:" +:+ newline
                         +:+ String.concat newline (map (showMemory rt) memories)
                  end) None), w')
    /\ storage w' = storage w.
Proof.
  intros Ht Hs. unfold searchMCPMemory, try_catch.
  step. rewrite Ht. step. unfold emit at 1. step. unfold emit at 1.
  step. rewrite Hs. step. unfold emit at 1.
  destruct memories; by eexists.
Qed.

Lemma search_outcomes_witness :
  exists w',
    searchMCPMemory runtime
      (mkEnv (storeMemory env_up) (storeMemoryInD1 env_up) (fun _ _ => Normal [])
             (session_manager_fault env_up) (uuidv4 env_up) (Date_now env_up))
      "alice" (Str "coffee") world0
    = (Normal (textResult "No relevant memories found." None), w')
    /\ storage w' = storage world0.
Proof.
  apply (search_outcomes runtime
           (mkEnv (storeMemory env_up) (storeMemoryInD1 env_up) (fun _ _ => Normal [])
                  (session_manager_fault env_up) (uuidv4 env_up) (Date_now env_up))
           "alice" (Str "coffee") "coffee" [] world0); reflexivity.
Defined.

(** A GET never reaches the dispatcher or a backend and ignores the body
    and the [Accept] header: with [capabilities] in the query it is answered
    with the capability document, and otherwise with an event stream whose
    first frame announces the resolved session. *)
Theorem get_is_probe_or_stream
    (rt : Runtime) (env : Env) (userId : string) (request : Request) (w : World) :
  method request = "GET" ->
  exists resp w',
    handleRequest rt env userId request w = (Normal resp, w')
    /\ status resp = 200
    /\ only_logged w w'
    /\ if bool_decide ("capabilities" ∈ query request) then
         body resp = Json (ValueDoc capabilities)
         /\ headers resp !! "Content-Type" = Some "application/json"
       else
         body resp
         = SseStream (ValueDoc (initialized_notification (resolved env request w)))
         /\ headers resp !! "Content-Type" = Some "text/event-stream".
Proof.
  intros Hm.
  assert (String.eqb (method request) "OPTIONS" = false) as Hopt by (by rewrite Hm).
  destruct (handleRequest_outcome rt env userId request w Hopt)
    as (resp & w1 & w' & _ & Hr & _ & _ & Hcase).
  rewrite Hm in Hcase. simpl in Hcase. destruct Hcase as [-> Hlog].
  eexists _, w'. split; [done|].
  destruct (bool_decide _); (split; [done|]); (split; [done|]); by split.
Qed.

Lemma get_is_probe_or_stream_witness :
  exists resp w',
    handleRequest runtime env_up "alice"
      (mkRequest "GET" [] {["Accept" := "application/json"]} None) world0
    = (Normal resp, w')
    /\ status resp = 200
    /\ only_logged world0 w'
    /\ if bool_decide ("capabilities" ∈ query (mkRequest "GET" []
                                                 {["Accept" := "application/json"]} None))
       then
         body resp = Json (ValueDoc capabilities)
         /\ headers resp !! "Content-Type" = Some "application/json"
       else
         body resp
         = SseStream (ValueDoc (initialized_notification
                                  (resolved env_up
                                     (mkRequest "GET" [] {["Accept" := "application/json"]}
                                        None) world0)))
         /\ headers resp !! "Content-Type" = Some "text/event-stream".
Proof.
  apply (get_is_probe_or_stream runtime env_up "alice"
           (mkRequest "GET" [] {["Accept" := "application/json"]} None) world0).
  reflexivity.
Defined.

(** [initialize] and [tools/list] are answered from constants: the answer
    depends on the method and the identifier alone, not on the params, the
    user, the runtime or the backends, and the run enters no backend. *)
Theorem handshake_is_constant
    (rt : Runtime) (env : Env) (userId : string) (body i : value) (m : string) (w : World) :
  get body "method" = Normal (Str m) ->
  m = "initialize" \/ m = "tools/list" ->
  get body "id" = Normal i ->
  processJsonRpcRequest rt env userId body w
  = (Normal (mkJsonRpcResponse "2.0"
               (Some (OfValue (if String.eqb m "initialize" then capabilities
                               else Obj [("tools", tools)])))
               None (or_else i Null)),
     entered w).
Proof.
  intros Hm Hcase Hi. unfold processJsonRpcRequest.
  step. unfold emit at 1. cbv beta iota. unfold try_catch at 1.
  step. rewrite Hm.
  destruct Hcase as [-> | ->]; simpl;
    unfold handleInitialize, handleToolsList; step; by rewrite Hi.
Qed.

Lemma handshake_is_constant_witness :
  processJsonRpcRequest runtime env_down "alice"
    (envelope "initialize" [("params", Num 5); ("id", Str "1")]) world0
  = (Normal (mkJsonRpcResponse "2.0"
               (Some (OfValue (if String.eqb "initialize" "initialize" then capabilities
                               else Obj [("tools", tools)])))
               None (or_else (Str "1") Null)),
     entered world0).
Proof.
  apply (handshake_is_constant runtime env_down "alice"
           (envelope "initialize" [("params", Num 5); ("id", Str "1")]) (Str "1")
           "initialize" world0); [reflexivity | by left | reflexivity].
Defined.

End TransportFacts.
